(** * TerraWardenDrone: the offboard position listener

    A shallow embedding of [wpi_drone/wpi_drone/vehicle_position_listener.py]
    (class [VehicleGlobalPositionListener]) and the properties of its frame
    transform, setpoint bookkeeping, readiness tracking and mission sequencer.

    Numbers.  Python [float] values are idealised as real numbers: [math.cos],
    [math.sin], [math.sqrt] and [math.pi] are [cos], [sin], [sqrt] and [PI] of
    the Standard Library, [**2] is [_ ^ 2] and [%] is the floored remainder
    [pymod].  Rounding, overflow and the float32 storage of message fields are
    outside the model.  Python [int] values (timestamps, enum codes, the two
    counters) are [Z].

    Effects.  The node object [self] is the record [Node]; every method takes
    the node and returns the updated node.  The three-element lists
    [[x, y, z]] are the record [Vec3].  A publisher is the list of messages
    published on it so far, oldest first.  Logger calls and the 2 s debug
    report only format text and are left out. *)

From Stdlib Require Import Reals Lra Lia ZArith List Bool.
Import ListNotations.

Open Scope R_scope.

(** ** Numbers *)

(** [a < b] on floats, as a boolean. *)
Definition Rltb (a b : R) : bool := if Rlt_dec a b then true else false.

(** Python's [a % m] for a positive modulus: the remainder of floored
    division, [a - floor(a / m) * m]. *)
Definition pymod (a m : R) : R := a - IZR (Int_part (a / m)) * m.

(** ** Messages *)

(** A list [[x, y, z]], indexed [v[0]], [v[1]], [v[2]]. *)
Record Vec3 : Type := mkVec3 { v0 : R; v1 : R; v2 : R }.

(** The fields of [px4_msgs.msg.VehicleLocalPosition] the node reads outside
    the debug report. *)
Record VehicleLocalPosition : Type := mkVehicleLocalPosition {
  lp_x : R;
  lp_y : R;
  lp_z : R;
  lp_xy_valid : bool;
  lp_z_valid : bool;
  lp_heading : R;
  lp_dist_bottom : R;
  lp_dist_bottom_valid : bool
}.

(** [VehicleLocalPosition()]: a generated ROS 2 message constructed without
    arguments has every numeric field 0 and every boolean field False. *)
Definition VehicleLocalPosition_default : VehicleLocalPosition :=
  mkVehicleLocalPosition 0 0 0 false false 0 0 false.

(** The fields of [px4_msgs.msg.VehicleStatus] the node reads outside the
    debug report. *)
Record VehicleStatus : Type := mkVehicleStatus {
  timestamp : Z;
  arming_state : Z;
  takeoff_time : Z;
  nav_state : Z
}.

(** Odometry and battery snapshots are stored and never inspected by the
    control loop. *)
Record VehicleOdometry : Type := mkVehicleOdometry { odom_timestamp : Z }.
Record BatteryStatus : Type := mkBatteryStatus { batt_timestamp : Z }.

Record OffboardControlMode : Type := mkOffboardControlMode {
  ocm_position : bool;
  ocm_velocity : bool;
  ocm_acceleration : bool;
  ocm_attitude : bool;
  ocm_body_rate : bool;
  ocm_timestamp : Z
}.

Record TrajectorySetpoint : Type := mkTrajectorySetpoint {
  ts_position : Vec3;
  ts_yaw : R;
  ts_timestamp : Z
}.

(** ** The node *)

Record Node : Type := mkNode {
  isArmed : bool;
  isFlying : bool;
  isOffboard : bool;
  arm_timestamp : option Z;
  flight_start_timestamp : option Z;
  initialization_counter : Z;
  home_coord_offset : Vec3;
  last_traj_setpoint_msg : option TrajectorySetpoint;
  status_var_temp : Z;
  vehicle_status : option VehicleStatus;
  vehicle_local_position : VehicleLocalPosition;
  vehicle_odometry : option VehicleOdometry;
  battery_status : option BatteryStatus;
  offboard_control_mode_publisher : list OffboardControlMode;
  trajectory_setpoint_publisher : list TrajectorySetpoint
}.

(** [__init__] *)
Definition init : Node := {|
  isArmed := false;
  isFlying := false;
  isOffboard := false;
  arm_timestamp := None;
  flight_start_timestamp := None;
  initialization_counter := 0%Z;
  home_coord_offset := mkVec3 0 0 0;
  last_traj_setpoint_msg := None;
  status_var_temp := 0%Z;
  vehicle_status := None;
  vehicle_local_position := VehicleLocalPosition_default;
  vehicle_odometry := None;
  battery_status := None;
  offboard_control_mode_publisher := [];
  trajectory_setpoint_publisher := []
|}.

(** Attribute assignments [self.f = v]. *)
Definition set_readiness (a f o : bool) (s : Node) : Node :=
  mkNode a f o (arm_timestamp s) (flight_start_timestamp s)
    (initialization_counter s) (home_coord_offset s)
    (last_traj_setpoint_msg s) (status_var_temp s) (vehicle_status s)
    (vehicle_local_position s) (vehicle_odometry s) (battery_status s)
    (offboard_control_mode_publisher s) (trajectory_setpoint_publisher s).

Definition set_arm_timestamp (t : option Z) (s : Node) : Node :=
  mkNode (isArmed s) (isFlying s) (isOffboard s) t (flight_start_timestamp s)
    (initialization_counter s) (home_coord_offset s)
    (last_traj_setpoint_msg s) (status_var_temp s) (vehicle_status s)
    (vehicle_local_position s) (vehicle_odometry s) (battery_status s)
    (offboard_control_mode_publisher s) (trajectory_setpoint_publisher s).

Definition set_flight_start_timestamp (t : option Z) (s : Node) : Node :=
  mkNode (isArmed s) (isFlying s) (isOffboard s) (arm_timestamp s) t
    (initialization_counter s) (home_coord_offset s)
    (last_traj_setpoint_msg s) (status_var_temp s) (vehicle_status s)
    (vehicle_local_position s) (vehicle_odometry s) (battery_status s)
    (offboard_control_mode_publisher s) (trajectory_setpoint_publisher s).

Definition set_initialization_counter (n : Z) (s : Node) : Node :=
  mkNode (isArmed s) (isFlying s) (isOffboard s) (arm_timestamp s)
    (flight_start_timestamp s) n (home_coord_offset s)
    (last_traj_setpoint_msg s) (status_var_temp s) (vehicle_status s)
    (vehicle_local_position s) (vehicle_odometry s) (battery_status s)
    (offboard_control_mode_publisher s) (trajectory_setpoint_publisher s).

Definition set_home_coord_offset (h : Vec3) (s : Node) : Node :=
  mkNode (isArmed s) (isFlying s) (isOffboard s) (arm_timestamp s)
    (flight_start_timestamp s) (initialization_counter s) h
    (last_traj_setpoint_msg s) (status_var_temp s) (vehicle_status s)
    (vehicle_local_position s) (vehicle_odometry s) (battery_status s)
    (offboard_control_mode_publisher s) (trajectory_setpoint_publisher s).

Definition set_last_traj_setpoint_msg (m : option TrajectorySetpoint)
    (s : Node) : Node :=
  mkNode (isArmed s) (isFlying s) (isOffboard s) (arm_timestamp s)
    (flight_start_timestamp s) (initialization_counter s)
    (home_coord_offset s) m (status_var_temp s) (vehicle_status s)
    (vehicle_local_position s) (vehicle_odometry s) (battery_status s)
    (offboard_control_mode_publisher s) (trajectory_setpoint_publisher s).

Definition set_status_var_temp (n : Z) (s : Node) : Node :=
  mkNode (isArmed s) (isFlying s) (isOffboard s) (arm_timestamp s)
    (flight_start_timestamp s) (initialization_counter s)
    (home_coord_offset s) (last_traj_setpoint_msg s) n (vehicle_status s)
    (vehicle_local_position s) (vehicle_odometry s) (battery_status s)
    (offboard_control_mode_publisher s) (trajectory_setpoint_publisher s).

Definition set_vehicle_status (m : option VehicleStatus) (s : Node) : Node :=
  mkNode (isArmed s) (isFlying s) (isOffboard s) (arm_timestamp s)
    (flight_start_timestamp s) (initialization_counter s)
    (home_coord_offset s) (last_traj_setpoint_msg s) (status_var_temp s) m
    (vehicle_local_position s) (vehicle_odometry s) (battery_status s)
    (offboard_control_mode_publisher s) (trajectory_setpoint_publisher s).

Definition set_vehicle_local_position (m : VehicleLocalPosition)
    (s : Node) : Node :=
  mkNode (isArmed s) (isFlying s) (isOffboard s) (arm_timestamp s)
    (flight_start_timestamp s) (initialization_counter s)
    (home_coord_offset s) (last_traj_setpoint_msg s) (status_var_temp s)
    (vehicle_status s) m (vehicle_odometry s) (battery_status s)
    (offboard_control_mode_publisher s) (trajectory_setpoint_publisher s).

Definition set_vehicle_odometry (m : option VehicleOdometry)
    (s : Node) : Node :=
  mkNode (isArmed s) (isFlying s) (isOffboard s) (arm_timestamp s)
    (flight_start_timestamp s) (initialization_counter s)
    (home_coord_offset s) (last_traj_setpoint_msg s) (status_var_temp s)
    (vehicle_status s) (vehicle_local_position s) m (battery_status s)
    (offboard_control_mode_publisher s) (trajectory_setpoint_publisher s).

Definition set_battery_status (m : option BatteryStatus) (s : Node) : Node :=
  mkNode (isArmed s) (isFlying s) (isOffboard s) (arm_timestamp s)
    (flight_start_timestamp s) (initialization_counter s)
    (home_coord_offset s) (last_traj_setpoint_msg s) (status_var_temp s)
    (vehicle_status s) (vehicle_local_position s) (vehicle_odometry s) m
    (offboard_control_mode_publisher s) (trajectory_setpoint_publisher s).

(** [self.offboard_control_mode_publisher.publish(msg)] *)
Definition publish_offboard_control_mode (m : OffboardControlMode)
    (s : Node) : Node :=
  mkNode (isArmed s) (isFlying s) (isOffboard s) (arm_timestamp s)
    (flight_start_timestamp s) (initialization_counter s)
    (home_coord_offset s) (last_traj_setpoint_msg s) (status_var_temp s)
    (vehicle_status s) (vehicle_local_position s) (vehicle_odometry s)
    (battery_status s)
    (offboard_control_mode_publisher s ++ [m])
    (trajectory_setpoint_publisher s).

(** [int(self.get_clock().now().nanoseconds / 1000)] for a clock reading in
    nanoseconds. *)
Definition clock_us (now_ns : Z) : Z := Z.quot now_ns 1000.

(** ** Telemetry callbacks *)

Definition vehicle_local_position_callback (m : VehicleLocalPosition)
    (s : Node) : Node :=
  set_vehicle_local_position m s.

Definition vehicle_status_callback (m : VehicleStatus) (s : Node) : Node :=
  let s := set_vehicle_status (Some m) s in
  let s := set_readiness (arming_state m =? 2)%Z (0 <? takeoff_time m)%Z
                         (nav_state m =? 14)%Z s in
  (* save the timestamp of the first time the vehicle is armed *)
  let s :=
    if isArmed s then
      match arm_timestamp s with
      | None => set_arm_timestamp (Some (timestamp m)) s
      | Some _ => s
      end
    else
      set_initialization_counter 0%Z (set_arm_timestamp None s) in
  (* save the timestamp and home coordinate offset *)
  if isFlying s then
    match flight_start_timestamp s with
    | None =>
        let s := set_flight_start_timestamp (Some (timestamp m)) s in
        set_home_coord_offset
          (mkVec3 (lp_x (vehicle_local_position s))
                  (lp_y (vehicle_local_position s))
                  (lp_z (vehicle_local_position s))) s
    | Some _ => s
    end
  else
    set_flight_start_timestamp None s.

Definition vehicle_odometry_callback (m : VehicleOdometry) (s : Node) : Node :=
  set_vehicle_odometry (Some m) s.

Definition battery_status_callback (m : BatteryStatus) (s : Node) : Node :=
  set_battery_status (Some m) s.

(** ** Outbound commands *)

Definition publish_offboard_control_heartbeat_signal (now_ns : Z)
    (s : Node) : Node :=
  publish_offboard_control_mode
    (mkOffboardControlMode true false false false false (clock_us now_ns)) s.

(** [publish_trajectory_setpoint(position, yaw=None)].  The source builds the
    message, stores it in [last_traj_setpoint_msg] and logs it; its last
    line, [self.trajectory_setpoint_publisher.publish(msg)], is commented
    out, so the publisher is not touched. *)
Definition publish_trajectory_setpoint (position : Vec3) (yaw : option R)
    (now_ns : Z) (s : Node) : Node :=
  let msg_position :=
    mkVec3 (v0 position + v0 (home_coord_offset s))
           (v1 position + v1 (home_coord_offset s))
           (v2 position + v2 (home_coord_offset s)) in
  let msg_yaw :=
    match yaw with
    | Some yaw => yaw * (PI / 180)
    | None => lp_heading (vehicle_local_position s)
    end in
  set_last_traj_setpoint_msg
    (Some (mkTrajectorySetpoint msg_position msg_yaw (clock_us now_ns))) s.

(** ** Frame transform *)

Definition heading_to_px4_yaw (heading : R) : R :=
  let heading := pymod heading 360 in
  let heading := if Rltb 180 heading then heading - 360 else heading in
  heading * (PI / 180).

Definition px4_yaw_to_heading (yaw : R) : R :=
  pymod (yaw * (180 / PI)) 360.

Definition ned_point_from_flu_offset (s : Node) (curr_ned_pos offset_flu : Vec3)
    : Vec3 :=
  let yaw_current := lp_heading (vehicle_local_position s) in
  let rotated_flu_x :=
    v0 offset_flu * cos yaw_current + v1 offset_flu * sin yaw_current in
  let rotated_flu_y :=
    v0 offset_flu * sin yaw_current - v1 offset_flu * cos yaw_current in
  let rotated_flu_z := v2 offset_flu in
  let offset_ned := mkVec3 rotated_flu_x rotated_flu_y (- rotated_flu_z) in
  mkVec3 (v0 curr_ned_pos + v0 offset_ned)
         (v1 curr_ned_pos + v1 offset_ned)
         (v2 curr_ned_pos + v2 offset_ned).

Definition check_terrain_safe (s : Node) (threshold : R) : bool :=
  if Rltb threshold (lp_dist_bottom (vehicle_local_position s))
     && lp_dist_bottom_valid (vehicle_local_position s)
  then true else false.

(** ** Setpoint tracking *)

Definition get_current_ned_pos (s : Node) : Vec3 :=
  mkVec3 (lp_x (vehicle_local_position s) - v0 (home_coord_offset s))
         (lp_y (vehicle_local_position s) - v1 (home_coord_offset s))
         (lp_z (vehicle_local_position s) - v2 (home_coord_offset s)).

Definition get_ned_pos (s : Node) (target : Vec3) : Vec3 :=
  mkVec3 (v0 target - v0 (home_coord_offset s))
         (v1 target - v1 (home_coord_offset s))
         (v2 target - v2 (home_coord_offset s)).

Definition get_traj_setpoint (s : Node) : option Vec3 :=
  match last_traj_setpoint_msg s with
  | None => None
  | Some msg => Some (get_ned_pos s (ts_position msg))
  end.

Definition is_at_position (s : Node) (target : Vec3) (threshold : R) : bool :=
  let curr_pos := get_current_ned_pos s in
  if Rltb (sqrt ((v0 curr_pos - v0 target) ^ 2
                 + (v1 curr_pos - v1 target) ^ 2
                 + (v2 curr_pos - v2 target) ^ 2)) threshold
  then true else false.

(** [is_at_traj_setpoint] returns before it reaches [get_traj_setpoint] when
    no message is stored, so the [None] of [get_traj_setpoint] is never passed
    on to [is_at_position]. *)
Definition is_at_traj_setpoint (s : Node) (threshold : R) : bool :=
  match last_traj_setpoint_msg s with
  | None => false
  | Some _ =>
      match get_traj_setpoint s with
      | Some target => is_at_position s target threshold
      | None => false
      end
  end.

(** ** Control loop *)

(** One firing of the 0.1 s timer.  [now_hb] and [now_sp] are the clock
    readings taken by the heartbeat and, when one is recorded, by the
    setpoint. *)
Definition timer_callback (now_hb now_sp : Z) (s : Node) : Node :=
  (* Publish the heartbeat *)
  let s := publish_offboard_control_heartbeat_signal now_hb s in
  (* Wait for vehicle status to be initialized *)
  match vehicle_status s with
  | None => s
  | Some _ =>
    (* Wait for vehicle to be armed, flying, and in offboard mode *)
    if isArmed s && isFlying s && isOffboard s then
      if (50 <=? initialization_counter s)%Z then
        if (status_var_temp s =? 0)%Z then
          set_status_var_temp 1%Z s
        else if (status_var_temp s =? 1)%Z then
          let offset :=
            ned_point_from_flu_offset s (get_current_ned_pos s)
                                      (mkVec3 0 (-1) 0) in
          let s := publish_trajectory_setpoint offset None now_sp s in
          set_status_var_temp 2%Z s
        else if (status_var_temp s =? 2)%Z then
          if is_at_traj_setpoint s 0.05 then set_status_var_temp 3%Z s else s
        else if (status_var_temp s =? 3)%Z then
          let offset :=
            ned_point_from_flu_offset s (get_current_ned_pos s)
                                      (mkVec3 0 1 0) in
          let s := publish_trajectory_setpoint offset None now_sp s in
          set_status_var_temp 4%Z s
        else if (status_var_temp s =? 4)%Z then
          if is_at_traj_setpoint s 0.05 then set_status_var_temp 5%Z s else s
        else if (status_var_temp s =? 5)%Z then
          set_status_var_temp 6%Z s
        else s
      else
        set_initialization_counter (initialization_counter s + 1)%Z s
    else s
  end.

(** ** Executions *)

(** What the executor can deliver to the node. *)
Inductive event : Type :=
| EvVehicleStatus (m : VehicleStatus)
| EvVehicleLocalPosition (m : VehicleLocalPosition)
| EvVehicleOdometry (m : VehicleOdometry)
| EvBatteryStatus (m : BatteryStatus)
| EvTimer (now_hb now_sp : Z).

Definition step (s : Node) (e : event) : Node :=
  match e with
  | EvVehicleStatus m => vehicle_status_callback m s
  | EvVehicleLocalPosition m => vehicle_local_position_callback m s
  | EvVehicleOdometry m => vehicle_odometry_callback m s
  | EvBatteryStatus m => battery_status_callback m s
  | EvTimer now_hb now_sp => timer_callback now_hb now_sp s
  end.

(** The node after a sequence of deliveries, first to last. *)
Definition run (s : Node) (evs : list event) : Node := fold_left step evs s.

(** Deliveries on the position-estimate topic. *)
Definition is_position_event (e : event) : bool :=
  match e with
  | EvVehicleLocalPosition _ => true
  | _ => false
  end.

(** The Euclidean distance computed inside [is_at_position]. *)
Definition distance (a b : Vec3) : R :=
  sqrt ((v0 a - v0 b) ^ 2 + (v1 a - v1 b) ^ 2 + (v2 a - v2 b) ^ 2).

(** Componentwise sum of two vectors. *)
Definition vadd (a b : Vec3) : Vec3 :=
  mkVec3 (v0 a + v0 b) (v1 a + v1 b) (v2 a + v2 b).

(** ** Sample nodes and messages *)

(** A node hovering at its home position [(0, 0, 0)] with a setpoint exactly
    one metre east. *)
Definition one_metre_east : Node :=
  set_last_traj_setpoint_msg
    (Some (mkTrajectorySetpoint (mkVec3 0 1 0) 0 0%Z)) init.

(** Status messages: armed (2), airborne and in offboard mode (14); and
    disarmed (1) on the ground in position mode (2). *)
Definition ready_status : VehicleStatus := mkVehicleStatus 1000 2 900 14.
Definition disarmed_status : VehicleStatus := mkVehicleStatus 2000 1 0 2.

(** A node in mission step 2, waiting to arrive at a setpoint one metre
    east of home, after the readiness debounce has elapsed. *)
Definition awaiting_arrival : Node := {|
  isArmed := true;
  isFlying := true;
  isOffboard := true;
  arm_timestamp := Some 1000%Z;
  flight_start_timestamp := Some 1000%Z;
  initialization_counter := 50%Z;
  home_coord_offset := mkVec3 0 0 0;
  last_traj_setpoint_msg := Some (mkTrajectorySetpoint (mkVec3 0 1 0) 0 7%Z);
  status_var_temp := 2%Z;
  vehicle_status := Some ready_status;
  vehicle_local_position := VehicleLocalPosition_default;
  vehicle_odometry := None;
  battery_status := None;
  offboard_control_mode_publisher := [];
  trajectory_setpoint_publisher := []
|}.

(** Firings of the control-loop timer. *)
Definition is_timer_event (e : event) : bool :=
  match e with
  | EvTimer _ _ => true
  | _ => false
  end.

(** The last value [status_var_temp] takes: no branch of [timer_callback]
    tests it. *)
Definition final_step : Z := 6%Z.

(** Executions in which the position-estimate topic never delivers. *)
Definition no_position_events (evs : list event) : bool :=
  forallb (fun e => negb (is_position_event e)) evs.

(** What holds of every node that has never received a position estimate:
    the estimate is still the zero message of [__init__], the home offset is
    zero, and a recorded setpoint can only be the one of mission step 1, one
    metre east of the zero position, with the mission in step 2. *)
Definition no_position_inv (s : Node) : Prop :=
  vehicle_local_position s = VehicleLocalPosition_default /\
  home_coord_offset s = mkVec3 0 0 0 /\
  match last_traj_setpoint_msg s with
  | None => (0 <= status_var_temp s <= 1)%Z
  | Some msg => ts_position msg = mkVec3 0 1 0 /\ status_var_temp s = 2%Z
  end.

(** A flight without position estimates: one ready status message, then 52
    ticks (50 for the readiness debounce, one for step 0, one for step 1). *)
Definition blind_flight : list event :=
  EvVehicleStatus ready_status :: repeat (EvTimer 0 0) 52.

(** Position estimates with valid flags set: one metre east of the origin,
    and at the origin. *)
Definition at_east : VehicleLocalPosition :=
  mkVehicleLocalPosition 0 1 0 true true 0 0 false.
Definition at_home : VehicleLocalPosition :=
  mkVehicleLocalPosition 0 0 0 true true 0 0 false.
Definition full_flight : list event :=
  blind_flight ++
  [EvVehicleLocalPosition at_east; EvTimer 0 0; EvTimer 0 0;
   EvVehicleLocalPosition at_home; EvTimer 0 0; EvTimer 0 0].

(** The sequencer is running with the mission in step [k]: a status
    message was received, the node is armed, flying and in offboard mode, and
    the debounce counter has reached 50. *)
Definition mission_at (s : Node) (k : Z) : Prop :=
  vehicle_status s <> None /\
  isArmed s && isFlying s && isOffboard s = true /\
  (50 <=? initialization_counter s)%Z = true /\
  status_var_temp s = k.

(** What the sequencer sees in step [k]: the home offset, the home-relative
    position, the yaw and the home-relative setpoint. *)
Definition mission_view (s : Node) (k : Z) (home pos : Vec3) (yaw : R)
    (target : option Vec3) : Prop :=
  mission_at s k /\
  home_coord_offset s = home /\
  get_current_ned_pos s = pos /\
  lp_heading (vehicle_local_position s) = yaw /\
  get_traj_setpoint s = target.

(** A node whose mission is over (step 6) and that was disarmed and armed
    again since: ready, with the debounce counter back at 0. *)
Definition mission_done_rearmed : Node := {|
  isArmed := true;
  isFlying := true;
  isOffboard := true;
  arm_timestamp := Some 9000%Z;
  flight_start_timestamp := Some 9000%Z;
  initialization_counter := 0%Z;
  home_coord_offset := mkVec3 0 0 0;
  last_traj_setpoint_msg := Some (mkTrajectorySetpoint (mkVec3 0 0 0) 0 8%Z);
  status_var_temp := 6%Z;
  vehicle_status := Some ready_status;
  vehicle_local_position := VehicleLocalPosition_default;
  vehicle_odometry := None;
  battery_status := None;
  offboard_control_mode_publisher := [];
  trajectory_setpoint_publisher := []
|}.

(** ** Readings of an execution *)

(** A node with a valid terrain reading of two metres. *)
Definition hovering : Node :=
  set_vehicle_local_position
    (mkVehicleLocalPosition 0 0 (-2) true true 0 2 true) init.

(** How many times the control-loop timer fires in an execution. *)
Definition timer_count (evs : list event) : Z :=
  Z.of_nat (length (filter is_timer_event evs)).

(** The status messages of an execution, tested by [p]; other deliveries
    pass. *)
Definition status_events_all (p : VehicleStatus -> bool) (evs : list event)
    : bool :=
  forallb (fun e => match e with
                    | EvVehicleStatus m => p m
                    | _ => true
                    end) evs.

(** The newest position estimate delivered in an execution, [old] if there
    is none. *)
Definition newest_position (old : VehicleLocalPosition) (evs : list event)
    : VehicleLocalPosition :=
  fold_left (fun acc e => match e with
                          | EvVehicleLocalPosition m => m
                          | _ => acc
                          end) evs old.

(** The heartbeat asks for position control and nothing else. *)
Definition position_only (m : OffboardControlMode) : bool :=
  ocm_position m && negb (ocm_velocity m) && negb (ocm_acceleration m)
  && negb (ocm_attitude m) && negb (ocm_body_rate m).

(** The readiness flags agree with the timestamps kept beside them and with
    the stored status message. *)
Definition readiness_consistent (s : Node) : Prop :=
  (isArmed s = true <-> arm_timestamp s <> None) /\
  (isFlying s = true <-> flight_start_timestamp s <> None) /\
  match vehicle_status s with
  | None => isArmed s = false /\ isFlying s = false /\ isOffboard s = false
  | Some m =>
      isArmed s = (arming_state m =? 2)%Z /\
      isFlying s = (0 <? takeoff_time m)%Z /\
      isOffboard s = (nav_state m =? 14)%Z
  end.

(** Tests on status messages: airborne, armed. *)
Definition status_flying (m : VehicleStatus) : bool := (0 <? takeoff_time m)%Z.
Definition status_armed (m : VehicleStatus) : bool := (arming_state m =? 2)%Z.

(** Executions in which the status topic never delivers. *)
Definition no_status_events (evs : list event) : bool :=
  forallb (fun e => match e with
                    | EvVehicleStatus _ => false
                    | _ => true
                    end) evs.

(** A node on the ground that has received one position estimate, three
    metres north and four metres east of the local origin. *)
Definition grounded : Node :=
  set_vehicle_local_position
    (mkVehicleLocalPosition 3 4 0 true true 0 0 false) init.

(** A node that has passed the readiness debounce and is about to record the
    first setpoint (mission step 1), at its home position with yaw 0. *)
Definition ready_to_move : Node := set_status_var_temp 1 awaiting_arrival.

(** ** Vehicle commands *)

From Stdlib Require String.

Module Commands.

Import String.
Local Open Scope string_scope.

(** The fields of [px4_msgs.msg.VehicleCommand] the node fills in. *)
Record VehicleCommand : Type := mkVehicleCommand {
  vc_command : Z;
  vc_param1 : R;
  vc_param2 : R;
  vc_param3 : R;
  vc_param4 : R;
  vc_param5 : R;
  vc_param6 : R;
  vc_param7 : R;
  vc_target_system : Z;
  vc_target_component : Z;
  vc_source_system : Z;
  vc_source_component : Z;
  vc_from_external : bool;
  vc_timestamp : Z
}.

(** [params.get(key, default)] on the keyword arguments [**params], kept as
    name-value pairs with distinct names. *)
Fixpoint params_get (params : list (string * R)) (key : string) (default : R)
    : R :=
  match params with
  | [] => default
  | (k, v) :: rest =>
      if String.eqb k key then v else params_get rest key default
  end.

(** [publish_vehicle_command(command, **params)].  The method reads the clock
    and appends to [self.vehicle_command_publisher]; that publisher is used
    by no other method and is passed here on its own, oldest message
    first. *)
Definition publish_vehicle_command (command : Z) (params : list (string * R))
    (now_ns : Z) (vehicle_command_publisher : list VehicleCommand)
    : list VehicleCommand :=
  vehicle_command_publisher ++
  [mkVehicleCommand command
     (params_get params "param1" 0) (params_get params "param2" 0)
     (params_get params "param3" 0) (params_get params "param4" 0)
     (params_get params "param5" 0) (params_get params "param6" 0)
     (params_get params "param7" 0)
     1 1 1 1 true (clock_us now_ns)].

Section Codes.

(** The command codes [VehicleCommand.VEHICLE_CMD_COMPONENT_ARM_DISARM] and
    [VehicleCommand.VEHICLE_CMD_NAV_LAND] are constants of the message
    package. *)
Variable VEHICLE_CMD_COMPONENT_ARM_DISARM : Z.
Variable VEHICLE_CMD_NAV_LAND : Z.

Definition arm (now_ns : Z) (pub : list VehicleCommand) : list VehicleCommand :=
  publish_vehicle_command VEHICLE_CMD_COMPONENT_ARM_DISARM [("param1", 1)]
    now_ns pub.

Definition disarm (now_ns : Z) (pub : list VehicleCommand)
    : list VehicleCommand :=
  publish_vehicle_command VEHICLE_CMD_COMPONENT_ARM_DISARM [("param1", 0)]
    now_ns pub.

Definition land (now_ns : Z) (pub : list VehicleCommand)
    : list VehicleCommand :=
  publish_vehicle_command VEHICLE_CMD_NAV_LAND [] now_ns pub.

End Codes.

End Commands.

(** A node whose home offset is [(3, 4, -1)], hovering at its home position
    with a stored absolute setpoint one metre further east. *)
Definition offset_hover : Node :=
  set_last_traj_setpoint_msg
    (Some (mkTrajectorySetpoint (mkVec3 3 5 (-1)) 0 0%Z))
    (set_home_coord_offset (mkVec3 3 4 (-1))
       (set_vehicle_local_position
          (mkVehicleLocalPosition 3 4 (-1) true true 0 0 false) init)).

(** The scripted flight followed by a disarm and a re-arm on the ground
    controller: the vehicle is ready again with the mission over. *)
Definition rearmed_flight : list event :=
  full_flight ++ [EvVehicleStatus disarmed_status; EvVehicleStatus ready_status].

(** Nodes about to record the first setpoint (mission step 1) with home
    offset [(3, 4, -1)]: one two metres north of home with a yaw of one
    radian, one at home facing east. *)
Definition ready_to_move_offset : Node :=
  set_home_coord_offset (mkVec3 3 4 (-1))
    (set_vehicle_local_position
       (mkVehicleLocalPosition 5 4 (-1) true true 1 2 true) ready_to_move).
Definition ready_to_move_east : Node :=
  set_home_coord_offset (mkVec3 3 4 (-1))
    (set_vehicle_local_position
       (mkVehicleLocalPosition 3 4 (-1) true true (PI / 2) 2 true)
       ready_to_move).

(** The position estimate one metre south of [(3, 4, -1)], still facing
    east. *)
Definition south_of_home : VehicleLocalPosition :=
  mkVehicleLocalPosition 2 4 (-1) true true (PI / 2) 2 true.

(** * Properties *)

(** ** Arithmetic helpers *)

Lemma Rltb_true (a b : R) : Rltb a b = true <-> a < b.
Proof.
  unfold Rltb. destruct (Rlt_dec a b) as [H | H]; split; intro K.
  - exact H.
  - reflexivity.
  - discriminate K.
  - contradiction.
Qed.

Lemma Rltb_false (a b : R) : Rltb a b = false <-> b <= a.
Proof.
  unfold Rltb. destruct (Rlt_dec a b) as [H | H]; split; intro K.
  - discriminate K.
  - lra.
  - lra.
  - reflexivity.
Qed.

Lemma pymod_range (a m : R) : 0 < m -> 0 <= pymod a m < m.
Proof.
  intro Hm. unfold pymod.
  destruct (base_Int_part (a / m)) as [Hle Hgt].
  assert (Ha : a = a / m * m) by (field; lra).
  set (q := IZR (Int_part (a / m))) in *.
  split.
  - assert (q * m <= a / m * m) by (apply Rmult_le_compat_r; lra). lra.
  - assert (a / m * m - q * m < 1 * m).
    { rewrite <- Rmult_minus_distr_r. apply Rmult_lt_compat_r; lra. }
    lra.
Qed.

Lemma pymod_small (a m : R) : 0 <= a < m -> pymod a m = a.
Proof.
  intros [H0 Hm]. unfold pymod.
  assert (Hq : 0%Z = Int_part (a / m)).
  { apply Int_part_spec. simpl.
    assert (0 < m) by lra.
    assert (0 <= a / m) by (apply Rle_mult_inv_pos; lra).
    assert (a / m < 1).
    { apply Rmult_lt_reg_r with m; [lra |].
      replace (a / m * m) with a by (field; lra). lra. }
    lra. }
  rewrite <- Hq. simpl. ring.
Qed.

Lemma pymod_congruent (a m : R) : exists k : Z, pymod a m = a - IZR k * m.
Proof. exists (Int_part (a / m)). reflexivity. Qed.

Lemma distance_nonneg (a b : Vec3) : 0 <= distance a b.
Proof. unfold distance. apply sqrt_pos. Qed.

(** ** Frame transform *)

(** C1: for every current NED position [(px, py, pz)], FLU offset
    [(f, l, u)] and yaw [psi] read from the position estimate,
    [ned_point_from_flu_offset] returns
    [(px + f cos psi + l sin psi, py + f sin psi - l cos psi, pz - u)]. *)
Theorem ned_point_from_flu_offset_formula (s : Node) (px py pz f l u : R) :
  let psi := lp_heading (vehicle_local_position s) in
  ned_point_from_flu_offset s (mkVec3 px py pz) (mkVec3 f l u)
  = mkVec3 (px + f * cos psi + l * sin psi)
           (py + f * sin psi - l * cos psi)
           (pz - u).
Proof.
  intro psi. unfold ned_point_from_flu_offset. cbn [v0 v1 v2].
  fold psi. f_equal; ring.
Qed.

(** The transform at yaw zero, for any offset: forward goes north, left goes
    to negative east, up goes to negative down. *)
Lemma ned_point_from_flu_offset_yaw0 (s : Node) (pos off : Vec3) :
  lp_heading (vehicle_local_position s) = 0 ->
  ned_point_from_flu_offset s pos off
  = mkVec3 (v0 pos + v0 off) (v1 pos - v1 off) (v2 pos - v2 off).
Proof.
  intro H. unfold ned_point_from_flu_offset. rewrite H, cos_0, sin_0.
  cbn [v0 v1 v2]. f_equal; ring.
Qed.

(** C2, as stated, fails: from the origin at yaw 0 the offset [(0, -1, 0)]
    lands on [(0, 1, 0)], which is not the origin plus [(0, -1, 0)]. *)
Lemma ned_point_from_flu_offset_right_not_west :
  lp_heading (vehicle_local_position init) = 0 /\
  ned_point_from_flu_offset init (mkVec3 0 0 0) (mkVec3 0 (-1) 0)
  <> vadd (mkVec3 0 0 0) (mkVec3 0 (-1) 0).
Proof.
  split; [reflexivity |].
  rewrite ned_point_from_flu_offset_yaw0 by reflexivity.
  unfold vadd. cbn [v0 v1 v2]. intro H.
  apply (f_equal v1) in H. cbn [v1] in H. lra.
Qed.

(** C2, amended: at yaw 0 the FLU offset [(0, -1, 0)], one metre to the
    right, moves the position by [(0, +1, 0)], one metre east. *)
Theorem ned_point_from_flu_offset_right_is_east (s : Node) (pos : Vec3) :
  lp_heading (vehicle_local_position s) = 0 ->
  ned_point_from_flu_offset s pos (mkVec3 0 (-1) 0)
  = vadd pos (mkVec3 0 1 0).
Proof.
  intro H. rewrite ned_point_from_flu_offset_yaw0 by exact H.
  unfold vadd. cbn [v0 v1 v2]. f_equal; ring.
Qed.

Lemma ned_point_from_flu_offset_right_is_east_witness :
  lp_heading (vehicle_local_position init) = 0 /\
  ned_point_from_flu_offset init (mkVec3 2 3 (-5)) (mkVec3 0 (-1) 0)
  = vadd (mkVec3 2 3 (-5)) (mkVec3 0 1 0).
Proof.
  split; [reflexivity |].
  apply (ned_point_from_flu_offset_right_is_east init (mkVec3 2 3 (-5))).
  reflexivity.
Defined.

(** The degrees kept by [heading_to_px4_yaw] before scaling: the heading
    normalised to [[0, 360)] and then moved to [(-180, 180]]. *)
Lemma heading_to_px4_yaw_unfold (h : R) :
  heading_to_px4_yaw h
  = (if Rltb 180 (pymod h 360) then pymod h 360 - 360 else pymod h 360)
    * (PI / 180).
Proof. reflexivity. Qed.

Lemma heading_to_px4_yaw_low (h : R) :
  0 <= h <= 180 -> heading_to_px4_yaw h = h * (PI / 180).
Proof.
  intro H. rewrite heading_to_px4_yaw_unfold.
  rewrite pymod_small by lra.
  assert (E : Rltb 180 h = false) by (apply Rltb_false; lra).
  rewrite E. reflexivity.
Qed.

Lemma heading_to_px4_yaw_high (h : R) :
  180 < h < 360 -> heading_to_px4_yaw h = (h - 360) * (PI / 180).
Proof.
  intro H. rewrite heading_to_px4_yaw_unfold.
  rewrite pymod_small by lra.
  assert (E : Rltb 180 h = true) by (apply Rltb_true; lra).
  rewrite E. reflexivity.
Qed.

Lemma heading_to_px4_yaw_range (h : R) : - PI < heading_to_px4_yaw h <= PI.
Proof.
  rewrite heading_to_px4_yaw_unfold.
  destruct (pymod_range h 360) as [H0 H360]; [lra |].
  assert (HPI := PI_RGT_0).
  set (m := pymod h 360) in *.
  destruct (Rltb 180 m) eqn:E.
  - apply Rltb_true in E. split; nra.
  - apply Rltb_false in E. split; nra.
Qed.

(** C3, as stated, fails: heading 90 degrees gives yaw [+PI/2]; with the
    sign negated it would be [-PI/2]. *)
Lemma heading_to_px4_yaw_not_negated :
  heading_to_px4_yaw 90 = 90 * (PI / 180) /\
  heading_to_px4_yaw 90 <> - (90 * (PI / 180)).
Proof.
  assert (E : heading_to_px4_yaw 90 = 90 * (PI / 180))
    by (apply heading_to_px4_yaw_low; lra).
  split; [exact E |].
  rewrite E. assert (HPI := PI_RGT_0). lra.
Qed.

(** C3, amended: for every heading [h] in degrees, [heading_to_px4_yaw]
    normalises [h] modulo 360 into [[0, 360)], subtracts 360 if the result
    exceeds 180, and scales by [PI / 180] with the sign kept; the value lies
    in [(-PI, PI]]. *)
Theorem heading_to_px4_yaw_spec (h : R) :
  let m := pymod h 360 in
  (exists k : Z, m = h - IZR k * 360) /\
  0 <= m < 360 /\
  heading_to_px4_yaw h = (if Rltb 180 m then m - 360 else m) * (PI / 180) /\
  - PI < heading_to_px4_yaw h <= PI.
Proof.
  intro m. repeat split.
  - apply pymod_congruent.
  - apply pymod_range; lra.
  - apply pymod_range; lra.
  - apply heading_to_px4_yaw_range.
  - apply heading_to_px4_yaw_range.
Qed.

(** The remainder of a negative number above [-m] wraps up by [m]. *)
Lemma pymod_negative (a m : R) : - m <= a < 0 -> pymod a m = a + m.
Proof.
  intros [Hm H0]. unfold pymod.
  assert (Hq : (-1)%Z = Int_part (a / m)).
  { apply Int_part_spec.
    assert (0 < m) by lra.
    assert (a / m < 0).
    { apply Rmult_lt_reg_r with m; [lra |].
      replace (a / m * m) with a by (field; lra). lra. }
    assert (-1 <= a / m).
    { apply Rmult_le_reg_r with m; [lra |].
      replace (a / m * m) with a by (field; lra). lra. }
    lra. }
  rewrite <- Hq. ring.
Qed.

(** X1: the conversion back, [px4_yaw_to_heading], undoes
    [heading_to_px4_yaw] on [[0, 360)]: neither direction changes the
    sign. *)
Lemma heading_yaw_round_trip (h : R) :
  0 <= h < 360 -> px4_yaw_to_heading (heading_to_px4_yaw h) = h.
Proof.
  intro H. unfold px4_yaw_to_heading.
  assert (HPI := PI_RGT_0).
  destruct (Rle_or_lt h 180) as [Hlow | Hhigh].
  - rewrite heading_to_px4_yaw_low by lra.
    replace (h * (PI / 180) * (180 / PI)) with h by (field; lra).
    apply pymod_small. lra.
  - rewrite heading_to_px4_yaw_high by lra.
    replace ((h - 360) * (PI / 180) * (180 / PI)) with (h - 360)
      by (field; lra).
    rewrite pymod_negative by lra. ring.
Qed.

(** ** Setpoint tracking *)

Lemma is_at_position_true (s : Node) (target : Vec3) (t : R) :
  is_at_position s target t = true
  <-> distance (get_current_ned_pos s) target < t.
Proof.
  unfold is_at_position, distance.
  destruct (Rltb _ t) eqn:E.
  - apply Rltb_true in E. split; [intros _; exact E | reflexivity].
  - apply Rltb_false in E. split; [discriminate | lra].
Qed.

Lemma is_at_traj_setpoint_some (s : Node) (msg : TrajectorySetpoint) (t : R) :
  last_traj_setpoint_msg s = Some msg ->
  is_at_traj_setpoint s t
  = is_at_position s (get_ned_pos s (ts_position msg)) t.
Proof.
  intro H. unfold is_at_traj_setpoint, get_traj_setpoint. rewrite H.
  reflexivity.
Qed.

(** C4: the arrival query is false when no setpoint was ever recorded;
    otherwise it is true exactly when the distance between the current
    home-relative position (the position estimate minus the home offset) and
    the stored absolute setpoint taken back to the home-relative frame (the
    stored position minus the home offset) is strictly below the threshold,
    so a distance equal to the threshold is not an arrival. *)
Theorem is_at_traj_setpoint_spec (s : Node) (t : R) :
  (last_traj_setpoint_msg s = None -> is_at_traj_setpoint s t = false) /\
  (forall msg, last_traj_setpoint_msg s = Some msg ->
     let home := home_coord_offset s in
     let estimate := vehicle_local_position s in
     let stored := ts_position msg in
     let d := sqrt (((lp_x estimate - v0 home) - (v0 stored - v0 home)) ^ 2
                    + ((lp_y estimate - v1 home) - (v1 stored - v1 home)) ^ 2
                    + ((lp_z estimate - v2 home) - (v2 stored - v2 home)) ^ 2)
     in
     (is_at_traj_setpoint s t = true <-> d < t) /\
     (d = t -> is_at_traj_setpoint s t = false)).
Proof.
  split.
  - intro H. unfold is_at_traj_setpoint. rewrite H. reflexivity.
  - intros msg H home estimate stored d.
    rewrite (is_at_traj_setpoint_some s msg t H).
    assert (Hd : distance (get_current_ned_pos s)
                          (get_ned_pos s (ts_position msg)) = d)
      by reflexivity.
    split.
    + rewrite <- Hd. apply is_at_position_true.
    + intro Ht.
      destruct (is_at_position s (get_ned_pos s (ts_position msg)) t) eqn:E;
        [| reflexivity].
      apply is_at_position_true in E. rewrite Hd in E. lra.
Qed.

Lemma one_metre_east_distance :
  distance (get_current_ned_pos one_metre_east)
           (get_ned_pos one_metre_east (mkVec3 0 1 0)) = 1.
Proof.
  unfold distance. cbn.
  replace ((0 - 0 - (0 - 0)) * ((0 - 0 - (0 - 0)) * 1)
           + (0 - 0 - (1 - 0)) * ((0 - 0 - (1 - 0)) * 1)
           + (0 - 0 - (0 - 0)) * ((0 - 0 - (0 - 0)) * 1)) with 1 by ring.
  apply sqrt_1.
Qed.

Lemma is_at_traj_setpoint_spec_witness :
  is_at_traj_setpoint init 1 = false /\
  (is_at_traj_setpoint offset_hover 2 = true) /\
  (is_at_traj_setpoint offset_hover 1 = false).
Proof.
  destruct (is_at_traj_setpoint_spec init 1) as [Hnone _].
  destruct (is_at_traj_setpoint_spec offset_hover 2) as [_ Hsome2].
  destruct (is_at_traj_setpoint_spec offset_hover 1) as [_ Hsome1].
  specialize (Hsome2 _ eq_refl). specialize (Hsome1 _ eq_refl).
  cbv zeta in Hsome1, Hsome2.
  split; [apply Hnone; reflexivity |].
  split.
  - apply (proj1 Hsome2).
    match goal with
    | |- sqrt ?a < _ => replace a with 1 by (cbn; ring)
    end.
    rewrite sqrt_1. lra.
  - apply (proj2 Hsome1).
    match goal with
    | |- sqrt ?a = _ => replace a with 1 by (cbn; ring)
    end.
    apply sqrt_1.
Defined.

(** C5, evaluated on the code: [publish_trajectory_setpoint] stores the
    message it built and leaves the trajectory-setpoint publisher as it was;
    nothing goes out on the topic. *)
Theorem publish_trajectory_setpoint_not_published
    (position : Vec3) (yaw : option R) (now_ns : Z) (s : Node) :
  let s' := publish_trajectory_setpoint position yaw now_ns s in
  last_traj_setpoint_msg s' <> None /\
  trajectory_setpoint_publisher s' = trajectory_setpoint_publisher s /\
  trajectory_setpoint_publisher
    (publish_trajectory_setpoint (mkVec3 0 1 0) None 0 init) = [].
Proof.
  intro s'. split; [| split].
  - subst s'. unfold publish_trajectory_setpoint. cbn. discriminate.
  - reflexivity.
  - reflexivity.
Qed.

(** C6: recording a setpoint stores [target + home_coord_offset]
    componentwise as the commanded position, and stores as yaw the explicit
    yaw multiplied by [PI / 180] when one is given, the current heading
    verbatim otherwise. *)
Theorem publish_trajectory_setpoint_record
    (target : Vec3) (yaw : option R) (now_ns : Z) (s : Node) :
  exists msg,
    last_traj_setpoint_msg (publish_trajectory_setpoint target yaw now_ns s)
    = Some msg /\
    ts_position msg = vadd target (home_coord_offset s) /\
    ts_yaw msg = match yaw with
                 | Some degrees => degrees * PI / 180
                 | None => lp_heading (vehicle_local_position s)
                 end.
Proof.
  unfold publish_trajectory_setpoint.
  eexists. split; [reflexivity |]. cbn [ts_position ts_yaw].
  split; [reflexivity |].
  destruct yaw as [degrees |]; [field | reflexivity].
Qed.

(** ** Readiness tracking *)

(** C7: a status update that takes the node from armed to not armed clears
    [arm_timestamp], resets [initialization_counter] to 0 and leaves the
    mission step [status_var_temp] as it was. *)
Theorem vehicle_status_callback_disarm (m : VehicleStatus) (s : Node) :
  isArmed s = true ->
  arming_state m <> 2%Z ->
  let s' := vehicle_status_callback m s in
  isArmed s' = false /\
  arm_timestamp s' = None /\
  initialization_counter s' = 0%Z /\
  status_var_temp s' = status_var_temp s.
Proof.
  intros _ Hm s'. subst s'. unfold vehicle_status_callback.
  apply Z.eqb_neq in Hm. rewrite Hm. cbn.
  destruct (0 <? takeoff_time m)%Z; cbn.
  - destruct (flight_start_timestamp s); cbn; repeat split; reflexivity.
  - repeat split; reflexivity.
Qed.

Lemma vehicle_status_callback_disarm_witness :
  status_var_temp awaiting_arrival = 2%Z /\
  initialization_counter awaiting_arrival = 50%Z /\
  isArmed (vehicle_status_callback disarmed_status awaiting_arrival) = false /\
  arm_timestamp (vehicle_status_callback disarmed_status awaiting_arrival)
  = None /\
  initialization_counter
    (vehicle_status_callback disarmed_status awaiting_arrival) = 0%Z /\
  status_var_temp (vehicle_status_callback disarmed_status awaiting_arrival)
  = status_var_temp awaiting_arrival.
Proof.
  split; [reflexivity |]. split; [reflexivity |].
  apply (vehicle_status_callback_disarm disarmed_status awaiting_arrival).
  - reflexivity.
  - cbn. lia.
Defined.

(** ** Mission sequencer *)

Lemma timer_callback_not_ready (now_hb now_sp : Z) (s : Node) :
  isArmed s && isFlying s && isOffboard s = false ->
  timer_callback now_hb now_sp s
  = publish_offboard_control_heartbeat_signal now_hb s.
Proof.
  intro H. unfold timer_callback.
  cbn [publish_offboard_control_heartbeat_signal publish_offboard_control_mode
       vehicle_status isArmed isFlying isOffboard].
  rewrite H. destruct (vehicle_status s); reflexivity.
Qed.

(** C8: on a tick at which armed, flying and offboard do not all hold, the
    sequencer changes neither the mission step nor the debounce counter and
    neither records nor emits a setpoint; the tick only sends the
    heartbeat. *)
Theorem timer_callback_idles_when_not_ready (now_hb now_sp : Z) (s : Node) :
  isArmed s && isFlying s && isOffboard s = false ->
  let s' := timer_callback now_hb now_sp s in
  s' = publish_offboard_control_heartbeat_signal now_hb s /\
  status_var_temp s' = status_var_temp s /\
  initialization_counter s' = initialization_counter s /\
  last_traj_setpoint_msg s' = last_traj_setpoint_msg s /\
  trajectory_setpoint_publisher s' = trajectory_setpoint_publisher s.
Proof.
  intros H s'. subst s'.
  rewrite (timer_callback_not_ready now_hb now_sp s H).
  repeat split; reflexivity.
Qed.

Lemma timer_callback_idles_when_not_ready_witness :
  status_var_temp
    (timer_callback 5 6 (vehicle_status_callback disarmed_status
                                                 awaiting_arrival)) = 2%Z /\
  initialization_counter
    (timer_callback 5 6 (vehicle_status_callback disarmed_status
                                                 awaiting_arrival)) = 0%Z.
Proof.
  destruct (timer_callback_idles_when_not_ready 5 6
              (vehicle_status_callback disarmed_status awaiting_arrival))
    as (_ & Hs & Hc & _).
  - reflexivity.
  - split; [rewrite Hs | rewrite Hc]; reflexivity.
Defined.

(** *** The mission step along an execution *)

Lemma run_app (s : Node) (pre post : list event) :
  run s (pre ++ post) = run (run s pre) post.
Proof. unfold run. apply fold_left_app. Qed.

Lemma run_cons (s : Node) (e : event) (evs : list event) :
  run s (e :: evs) = run (step s e) evs.
Proof. reflexivity. Qed.

Lemma vehicle_status_callback_mission (m : VehicleStatus) (s : Node) :
  status_var_temp (vehicle_status_callback m s) = status_var_temp s /\
  last_traj_setpoint_msg (vehicle_status_callback m s)
  = last_traj_setpoint_msg s /\
  trajectory_setpoint_publisher (vehicle_status_callback m s)
  = trajectory_setpoint_publisher s.
Proof.
  unfold vehicle_status_callback. cbn.
  destruct (arming_state m =? 2)%Z; cbn;
    destruct (0 <? takeoff_time m)%Z; cbn;
    destruct (arm_timestamp s); cbn;
    destruct (flight_start_timestamp s); cbn;
    repeat split; reflexivity.
Qed.

Ltac tick_cases s :=
  unfold timer_callback;
  cbn [publish_offboard_control_heartbeat_signal publish_offboard_control_mode
       vehicle_status isArmed isFlying isOffboard initialization_counter
       status_var_temp];
  destruct (vehicle_status s); [| cbn; auto with zarith];
  destruct (isArmed s && isFlying s && isOffboard s); [| cbn; auto with zarith];
  destruct (50 <=? initialization_counter s)%Z; [| cbn; auto with zarith];
  destruct (status_var_temp s =? 0)%Z eqn:E0;
    [apply Z.eqb_eq in E0 | apply Z.eqb_neq in E0];
  [| destruct (status_var_temp s =? 1)%Z eqn:E1;
     [apply Z.eqb_eq in E1 | apply Z.eqb_neq in E1];
   [| destruct (status_var_temp s =? 2)%Z eqn:E2;
      [apply Z.eqb_eq in E2 | apply Z.eqb_neq in E2];
    [| destruct (status_var_temp s =? 3)%Z eqn:E3;
       [apply Z.eqb_eq in E3 | apply Z.eqb_neq in E3];
     [| destruct (status_var_temp s =? 4)%Z eqn:E4;
        [apply Z.eqb_eq in E4 | apply Z.eqb_neq in E4];
      [| destruct (status_var_temp s =? 5)%Z eqn:E5;
         [apply Z.eqb_eq in E5 | apply Z.eqb_neq in E5]]]]]].

Lemma timer_callback_status_var_temp (now_hb now_sp : Z) (s : Node) :
  status_var_temp (timer_callback now_hb now_sp s) = status_var_temp s \/
  status_var_temp (timer_callback now_hb now_sp s)
  = (status_var_temp s + 1)%Z.
Proof.
  tick_cases s;
    repeat match goal with
           | |- context [if ?b then _ else _] => destruct b
           end;
    cbn; lia.
Qed.

Lemma timer_callback_range (now_hb now_sp : Z) (s : Node) :
  (0 <= status_var_temp s <= final_step)%Z ->
  (0 <= status_var_temp (timer_callback now_hb now_sp s) <= final_step)%Z.
Proof.
  unfold final_step. intro H.
  tick_cases s;
    repeat match goal with
           | |- context [if ?b then _ else _] => destruct b
           end;
    cbn; lia.
Qed.

Lemma timer_callback_final (now_hb now_sp : Z) (s : Node) :
  status_var_temp s = final_step ->
  status_var_temp (timer_callback now_hb now_sp s) = final_step /\
  last_traj_setpoint_msg (timer_callback now_hb now_sp s)
  = last_traj_setpoint_msg s /\
  trajectory_setpoint_publisher (timer_callback now_hb now_sp s)
  = trajectory_setpoint_publisher s.
Proof.
  unfold final_step. intro H.
  tick_cases s; try lia; cbn; auto.
Qed.

Lemma step_other_mission (s : Node) (e : event) :
  is_timer_event e = false ->
  status_var_temp (step s e) = status_var_temp s /\
  last_traj_setpoint_msg (step s e) = last_traj_setpoint_msg s /\
  trajectory_setpoint_publisher (step s e) = trajectory_setpoint_publisher s.
Proof.
  destruct e as [m | m | m | m | hb sp]; cbn [is_timer_event step]; intro H.
  - apply vehicle_status_callback_mission.
  - repeat split; reflexivity.
  - repeat split; reflexivity.
  - repeat split; reflexivity.
  - discriminate H.
Qed.

Lemma step_status_var_temp (s : Node) (e : event) :
  status_var_temp (step s e) = status_var_temp s \/
  status_var_temp (step s e) = (status_var_temp s + 1)%Z.
Proof.
  destruct (is_timer_event e) eqn:E.
  - destruct e; try discriminate E. apply timer_callback_status_var_temp.
  - left. apply step_other_mission. exact E.
Qed.

Lemma step_range (s : Node) (e : event) :
  (0 <= status_var_temp s <= final_step)%Z ->
  (0 <= status_var_temp (step s e) <= final_step)%Z.
Proof.
  intro H. destruct (is_timer_event e) eqn:E.
  - destruct e; try discriminate E. apply timer_callback_range. exact H.
  - destruct (step_other_mission s e E) as [-> _]. exact H.
Qed.

Lemma step_final (s : Node) (e : event) :
  status_var_temp s = final_step ->
  status_var_temp (step s e) = final_step /\
  last_traj_setpoint_msg (step s e) = last_traj_setpoint_msg s /\
  trajectory_setpoint_publisher (step s e) = trajectory_setpoint_publisher s.
Proof.
  intro H. destruct (is_timer_event e) eqn:E.
  - destruct e; try discriminate E. apply timer_callback_final. exact H.
  - destruct (step_other_mission s e E) as (Hs & Hl & Hp).
    rewrite Hs. auto.
Qed.

Lemma run_range (s : Node) (evs : list event) :
  (0 <= status_var_temp s <= final_step)%Z ->
  (0 <= status_var_temp (run s evs) <= final_step)%Z.
Proof.
  revert s. induction evs as [| e evs IH]; intros s H.
  - exact H.
  - rewrite run_cons. apply IH. apply step_range. exact H.
Qed.

Lemma run_monotone (s : Node) (evs : list event) :
  (status_var_temp s <= status_var_temp (run s evs))%Z.
Proof.
  revert s. induction evs as [| e evs IH]; intro s.
  - cbn. lia.
  - rewrite run_cons. specialize (IH (step s e)).
    destruct (step_status_var_temp s e); lia.
Qed.

Lemma run_final (s : Node) (evs : list event) :
  status_var_temp s = final_step ->
  status_var_temp (run s evs) = final_step /\
  last_traj_setpoint_msg (run s evs) = last_traj_setpoint_msg s /\
  trajectory_setpoint_publisher (run s evs) = trajectory_setpoint_publisher s.
Proof.
  revert s. induction evs as [| e evs IH]; intros s H.
  - auto.
  - rewrite run_cons.
    destruct (step_final s e H) as (Hs & Hl & Hp).
    destruct (IH (step s e) Hs) as (Hs' & Hl' & Hp').
    rewrite Hl', Hp'. auto.
Qed.


(** *** Arrival checks before any position estimate *)

Lemma no_position_arrival (s : Node) (t : R) :
  no_position_inv s ->
  is_at_traj_setpoint s t
  = match last_traj_setpoint_msg s with
    | None => false
    | Some _ => Rltb 1 t
    end.
Proof.
  intros (Hp & Hh & Hl).
  destruct (last_traj_setpoint_msg s) as [msg |] eqn:El.
  - destruct Hl as [Hm _].
    rewrite (is_at_traj_setpoint_some s msg t El).
    unfold is_at_position, get_current_ned_pos, get_ned_pos.
    rewrite Hp, Hh, Hm. cbn [v0 v1 v2 lp_x lp_y lp_z
                              VehicleLocalPosition_default].
    replace ((0 - 0 - (0 - 0)) ^ 2 + (0 - 0 - (1 - 0)) ^ 2
             + (0 - 0 - (0 - 0)) ^ 2) with 1 by ring.
    rewrite sqrt_1. destruct (Rltb 1 t); reflexivity.
  - unfold is_at_traj_setpoint. rewrite El. reflexivity.
Qed.

Lemma no_position_inv_init : no_position_inv init.
Proof. repeat split; cbn; lia. Qed.

Lemma vehicle_status_callback_no_position (m : VehicleStatus) (s : Node) :
  no_position_inv s -> no_position_inv (vehicle_status_callback m s).
Proof.
  intros (Hp & Hh & Hl).
  destruct (vehicle_status_callback_mission m s) as (Hs & Hm & _).
  unfold no_position_inv. rewrite Hs, Hm.
  split; [| split; [| exact Hl]];
    unfold vehicle_status_callback; cbn;
    destruct (arming_state m =? 2)%Z; cbn;
    destruct (0 <? takeoff_time m)%Z; cbn;
    destruct (arm_timestamp s); cbn;
    destruct (flight_start_timestamp s); cbn;
    try assumption; rewrite Hp; reflexivity.
Qed.

Lemma timer_callback_no_position (now_hb now_sp : Z) (s : Node) :
  no_position_inv s -> no_position_inv (timer_callback now_hb now_sp s).
Proof.
  intro H. unfold timer_callback.
  set (s1 := publish_offboard_control_heartbeat_signal now_hb s).
  assert (H1 : no_position_inv s1) by exact H.
  clearbody s1. clear H s.
  destruct (vehicle_status s1); [| exact H1].
  destruct (isArmed s1 && isFlying s1 && isOffboard s1); [| exact H1].
  destruct (50 <=? initialization_counter s1)%Z; [| exact H1].
  pose proof (no_position_arrival s1 0.05 H1) as Ha.
  destruct H1 as (Hp & Hh & Hl).
  destruct (last_traj_setpoint_msg s1) as [msg |] eqn:El.
  - destruct Hl as [Hm Hs]. rewrite Hs. cbn [Z.eqb Pos.eqb].
    rewrite Ha.
    assert (E : Rltb 1 0.05 = false) by (apply Rltb_false; lra).
    rewrite E. unfold no_position_inv. rewrite El. auto.
  - assert (Hs : status_var_temp s1 = 0%Z \/ status_var_temp s1 = 1%Z) by lia.
    destruct Hs as [Hs | Hs]; rewrite Hs; cbn [Z.eqb Pos.eqb].
    + unfold no_position_inv. cbn. rewrite El. repeat split; auto; lia.
    + unfold no_position_inv. cbn. repeat split; auto.
      rewrite Hp, Hh. cbn. rewrite cos_0, sin_0. f_equal; ring.
Qed.

Lemma run_no_position (evs : list event) (s : Node) :
  no_position_events evs = true ->
  no_position_inv s -> no_position_inv (run s evs).
Proof.
  revert s. induction evs as [| e evs IH]; intros s Hev H.
  - exact H.
  - cbn in Hev. apply andb_prop in Hev. destruct Hev as [He Hev].
    rewrite run_cons. apply IH; [exact Hev |].
    destruct e as [m | m | m | m | hb sp]; cbn [step].
    + apply vehicle_status_callback_no_position. exact H.
    + discriminate He.
    + exact H.
    + exact H.
    + apply timer_callback_no_position. exact H.
Qed.

Lemma blind_flight_step : status_var_temp (run init blind_flight) = 2%Z.
Proof. lazy. reflexivity. Qed.

(** C9, as stated, fails: in a flight that never received a position
    estimate, once the mission has recorded its first setpoint an arrival
    check with a 2 m threshold answers "arrived". *)
Lemma no_position_arrival_not_always_false :
  no_position_events blind_flight = true /\
  last_traj_setpoint_msg (run init blind_flight) <> None /\
  is_at_traj_setpoint (run init blind_flight) 2 = true.
Proof.
  split; [reflexivity |].
  pose proof (run_no_position blind_flight init eq_refl no_position_inv_init)
    as H.
  pose proof (no_position_arrival _ 2 H) as Ha.
  destruct H as (_ & _ & Hl).
  pose proof blind_flight_step as Hs.
  destruct (last_traj_setpoint_msg (run init blind_flight)) as [msg |].
  - split; [discriminate |]. rewrite Ha. apply Rltb_true. lra.
  - lia.
Qed.

(** C9, amended: while no position estimate has been received the arrival
    check computes with the zero-initialised estimate.  It answers
    "arrived" exactly when a setpoint is recorded and the threshold exceeds
    1 m, the distance of the only setpoint the mission can have recorded;
    every check of the mission sequencer (threshold 0.05 m) therefore answers
    "not arrived" and the mission does not get past step 2. *)
Theorem no_position_arrival_checks (evs : list event) (t : R) :
  no_position_events evs = true ->
  let s := run init evs in
  vehicle_local_position s = VehicleLocalPosition_default /\
  (is_at_traj_setpoint s t = true
   <-> last_traj_setpoint_msg s <> None /\ 1 < t) /\
  is_at_traj_setpoint s 0.05 = false /\
  (status_var_temp s <= 2)%Z.
Proof.
  intros Hev s.
  pose proof (run_no_position evs init Hev no_position_inv_init) as H.
  fold s in H.
  pose proof (no_position_arrival s t H) as Ht.
  pose proof (no_position_arrival s 0.05 H) as H5.
  destruct H as (Hp & _ & Hl).
  split; [exact Hp |].
  destruct (last_traj_setpoint_msg s) as [msg |].
  - split; [| split].
    + rewrite Ht, Rltb_true. split.
      * intro K. split; [discriminate | exact K].
      * intros [_ K]. exact K.
    + rewrite H5. apply Rltb_false. lra.
    + lia.
  - split; [| split].
    + rewrite Ht. split; [discriminate |]. intros [K _]. contradiction.
    + exact H5.
    + lia.
Qed.

Lemma no_position_arrival_checks_witness :
  is_at_traj_setpoint (run init blind_flight) 0.05 = false /\
  (status_var_temp (run init blind_flight) <= 2)%Z.
Proof.
  destruct (no_position_arrival_checks blind_flight 0.05) as (_ & _ & H5 & Hs).
  - reflexivity.
  - split; [exact H5 | exact Hs].
Defined.

(** Nothing reaches the trajectory-setpoint topic, whatever is delivered. *)
Lemma timer_callback_publisher (now_hb now_sp : Z) (s : Node) :
  trajectory_setpoint_publisher (timer_callback now_hb now_sp s)
  = trajectory_setpoint_publisher s.
Proof.
  tick_cases s;
    repeat match goal with
           | |- context [if ?b then _ else _] => destruct b
           end;
    reflexivity.
Qed.

Lemma run_publisher (s : Node) (evs : list event) :
  trajectory_setpoint_publisher (run s evs) = trajectory_setpoint_publisher s.
Proof.
  revert s. induction evs as [| e evs IH]; intro s; [reflexivity |].
  rewrite run_cons, IH.
  destruct e as [m | m | m | m | hb sp]; cbn [step].
  - apply vehicle_status_callback_mission.
  - reflexivity.
  - reflexivity.
  - reflexivity.
  - apply timer_callback_publisher.
Qed.

(** In the last step the debounce counter is still driven by readiness: after
    a disarm and re-arm it counts up again while the step stays 6. *)
Lemma final_step_counter_recounts :
  status_var_temp mission_done_rearmed = final_step /\
  status_var_temp (timer_callback 0 0 mission_done_rearmed) = final_step /\
  initialization_counter mission_done_rearmed = 0%Z /\
  initialization_counter (timer_callback 0 0 mission_done_rearmed) = 1%Z.
Proof. repeat split; reflexivity. Qed.

(** *** The scripted mission, step by step *)

(** Unfolds one tick of a node for which [mission_at] holds. *)
Ltac tick_at H :=
  destruct H as (Hv & Hr & Hc & Hk);
  unfold timer_callback;
  cbn [publish_offboard_control_heartbeat_signal publish_offboard_control_mode
       vehicle_status isArmed isFlying isOffboard initialization_counter
       status_var_temp];
  rewrite Hr, Hc, Hk;
  match goal with
  | |- context [match vehicle_status ?s with _ => _ end] =>
      destruct (vehicle_status s); [| contradiction Hv; reflexivity]
  end;
  cbn [Z.eqb Pos.eqb].

(** The transition table of the sequencer, one equation per step. *)
Lemma timer_callback_step0 (hb sp : Z) (s : Node) :
  mission_at s 0 ->
  timer_callback hb sp s
  = set_status_var_temp 1 (publish_offboard_control_heartbeat_signal hb s).
Proof. intro H. tick_at H. reflexivity. Qed.

Lemma timer_callback_step1 (hb sp : Z) (s : Node) :
  mission_at s 1 ->
  timer_callback hb sp s
  = let s1 := publish_offboard_control_heartbeat_signal hb s in
    set_status_var_temp 2
      (publish_trajectory_setpoint
         (ned_point_from_flu_offset s1 (get_current_ned_pos s1)
                                    (mkVec3 0 (-1) 0)) None sp s1).
Proof. intro H. tick_at H. reflexivity. Qed.

Lemma timer_callback_step2 (hb sp : Z) (s : Node) :
  mission_at s 2 ->
  timer_callback hb sp s
  = let s1 := publish_offboard_control_heartbeat_signal hb s in
    if is_at_traj_setpoint s 0.05 then set_status_var_temp 3 s1 else s1.
Proof. intro H. tick_at H. reflexivity. Qed.

Lemma timer_callback_step3 (hb sp : Z) (s : Node) :
  mission_at s 3 ->
  timer_callback hb sp s
  = let s1 := publish_offboard_control_heartbeat_signal hb s in
    set_status_var_temp 4
      (publish_trajectory_setpoint
         (ned_point_from_flu_offset s1 (get_current_ned_pos s1)
                                    (mkVec3 0 1 0)) None sp s1).
Proof. intro H. tick_at H. reflexivity. Qed.

Lemma timer_callback_step4 (hb sp : Z) (s : Node) :
  mission_at s 4 ->
  timer_callback hb sp s
  = let s1 := publish_offboard_control_heartbeat_signal hb s in
    if is_at_traj_setpoint s 0.05 then set_status_var_temp 5 s1 else s1.
Proof. intro H. tick_at H. reflexivity. Qed.

Lemma timer_callback_step5 (hb sp : Z) (s : Node) :
  mission_at s 5 ->
  timer_callback hb sp s
  = set_status_var_temp 6 (publish_offboard_control_heartbeat_signal hb s).
Proof. intro H. tick_at H. reflexivity. Qed.

Lemma vec3_eq (a b : Vec3) :
  v0 a = v0 b -> v1 a = v1 b -> v2 a = v2 b -> a = b.
Proof. destruct a, b. cbn. intros -> -> ->. reflexivity. Qed.

Lemma view_position (m : VehicleLocalPosition) (s : Node) (k : Z)
    (home pos : Vec3) (yaw : R) (target : option Vec3) :
  mission_view s k home pos yaw target ->
  mission_view (vehicle_local_position_callback m s) k home
    (mkVec3 (lp_x m - v0 home) (lp_y m - v1 home) (lp_z m - v2 home))
    (lp_heading m) target.
Proof.
  intros (M & Hh & _ & _ & Ht).
  split; [exact M |]. split; [exact Hh |]. split; [| split].
  - unfold get_current_ned_pos. cbn. rewrite Hh. reflexivity.
  - reflexivity.
  - exact Ht.
Qed.

Lemma view_step0 (hb sp : Z) (s : Node) (home pos : Vec3) (yaw : R)
    (target : option Vec3) :
  mission_view s 0 home pos yaw target ->
  mission_view (timer_callback hb sp s) 1 home pos yaw target.
Proof.
  intros (M & Hh & Hp & Hy & Ht).
  rewrite (timer_callback_step0 hb sp s M).
  destruct M as (Hv & Hr & Hc & _).
  split; [repeat (split; [assumption |]); reflexivity |].
  repeat (split; [assumption |]). exact Ht.
Qed.

(** Recording a setpoint at offset [off]: the home-relative setpoint becomes
    the rotated offset added to the current position. *)
Lemma view_record (off : Vec3) (hb sp : Z) (s : Node) (k k' : Z)
    (home pos : Vec3) (yaw : R) (target : option Vec3) :
  mission_view s k home pos yaw target ->
  let s1 := publish_offboard_control_heartbeat_signal hb s in
  mission_view
    (set_status_var_temp k'
       (publish_trajectory_setpoint
          (ned_point_from_flu_offset s1 (get_current_ned_pos s1) off)
          None sp s1))
    k' home pos yaw
    (Some (mkVec3 (v0 pos + (v0 off * cos yaw + v1 off * sin yaw))
                  (v1 pos + (v0 off * sin yaw - v1 off * cos yaw))
                  (v2 pos - v2 off))).
Proof.
  intros (M & Hh & Hp & Hy & Ht) s1.
  destruct M as (Hv & Hr & Hc & _).
  split; [| split; [| split; [| split]]].
  - repeat (split; [assumption |]). reflexivity.
  - exact Hh.
  - exact Hp.
  - exact Hy.
  - unfold get_traj_setpoint. cbn [last_traj_setpoint_msg set_status_var_temp
      publish_trajectory_setpoint set_last_traj_setpoint_msg].
    f_equal. unfold get_ned_pos, ned_point_from_flu_offset.
    cbn [home_coord_offset set_status_var_temp publish_trajectory_setpoint
         set_last_traj_setpoint_msg ts_position v0 v1 v2
         vehicle_local_position].
    change (get_current_ned_pos s1) with (get_current_ned_pos s).
    change (vehicle_local_position s1) with (vehicle_local_position s).
    change (home_coord_offset s1) with (home_coord_offset s).
    rewrite Hp, Hy.
    apply vec3_eq; cbn [v0 v1 v2]; ring.
Qed.

Lemma view_step1 (hb sp : Z) (s : Node) (home pos : Vec3) (yaw : R)
    (target : option Vec3) :
  mission_view s 1 home pos yaw target ->
  mission_view (timer_callback hb sp s) 2 home pos yaw
    (Some (mkVec3 (v0 pos + (0 * cos yaw + -1 * sin yaw))
                  (v1 pos + (0 * sin yaw - -1 * cos yaw))
                  (v2 pos - 0))).
Proof.
  intro H. rewrite (timer_callback_step1 hb sp s (proj1 H)).
  apply (view_record (mkVec3 0 (-1) 0) hb sp s 1 2 home pos yaw target H).
Qed.

Lemma view_step3 (hb sp : Z) (s : Node) (home pos : Vec3) (yaw : R)
    (target : option Vec3) :
  mission_view s 3 home pos yaw target ->
  mission_view (timer_callback hb sp s) 4 home pos yaw
    (Some (mkVec3 (v0 pos + (0 * cos yaw + 1 * sin yaw))
                  (v1 pos + (0 * sin yaw - 1 * cos yaw))
                  (v2 pos - 0))).
Proof.
  intro H. rewrite (timer_callback_step3 hb sp s (proj1 H)).
  apply (view_record (mkVec3 0 1 0) hb sp s 3 4 home pos yaw target H).
Qed.

(** Seen through [mission_view], the arrival check compares the distance
    between position and setpoint with the threshold. *)
Lemma view_arrival (s : Node) (k : Z) (home pos tgt : Vec3) (yaw t : R) :
  mission_view s k home pos yaw (Some tgt) ->
  is_at_traj_setpoint s t = Rltb (distance pos tgt) t.
Proof.
  intros (_ & _ & Hp & _ & Ht).
  unfold get_traj_setpoint in Ht.
  destruct (last_traj_setpoint_msg s) as [msg |] eqn:El; [| discriminate Ht].
  injection Ht as Ht.
  rewrite (is_at_traj_setpoint_some s msg t El).
  unfold is_at_position. rewrite Ht, Hp. fold (distance pos tgt).
  destruct (Rltb (distance pos tgt) t); reflexivity.
Qed.

Lemma distance_self (a : Vec3) : distance a a = 0.
Proof.
  unfold distance.
  replace ((v0 a - v0 a) ^ 2 + (v1 a - v1 a) ^ 2 + (v2 a - v2 a) ^ 2)
    with 0 by ring.
  apply sqrt_0.
Qed.

Lemma view_step_arrived (hb sp : Z) (s : Node) (k : Z) (home pos tgt : Vec3)
    (yaw : R) :
  k = 2%Z \/ k = 4%Z ->
  mission_view s k home pos yaw (Some tgt) ->
  distance pos tgt < 0.05 ->
  mission_view (timer_callback hb sp s) (k + 1) home pos yaw (Some tgt).
Proof.
  intros Hk H Hd.
  pose proof (view_arrival s k home pos tgt yaw 0.05 H) as Ha.
  apply Rltb_true in Hd. rewrite Hd in Ha.
  destruct H as (M & Hh & Hp & Hy & Ht).
  destruct Hk as [-> | ->].
  - rewrite (timer_callback_step2 hb sp s M), Ha. cbv zeta.
    destruct M as (Hv & Hr & Hc & _).
    split; [repeat (split; [assumption |]); reflexivity |].
    repeat (split; [assumption |]). exact Ht.
  - rewrite (timer_callback_step4 hb sp s M), Ha. cbv zeta.
    destruct M as (Hv & Hr & Hc & _).
    split; [repeat (split; [assumption |]); reflexivity |].
    repeat (split; [assumption |]). exact Ht.
Qed.

Lemma view_step_waiting (hb sp : Z) (s : Node) (k : Z) (home pos tgt : Vec3)
    (yaw : R) :
  k = 2%Z \/ k = 4%Z ->
  mission_view s k home pos yaw (Some tgt) ->
  0.05 <= distance pos tgt ->
  mission_view (timer_callback hb sp s) k home pos yaw (Some tgt).
Proof.
  intros Hk H Hd.
  pose proof (view_arrival s k home pos tgt yaw 0.05 H) as Ha.
  apply Rltb_false in Hd. rewrite Hd in Ha.
  destruct H as (M & Hh & Hp & Hy & Ht).
  destruct Hk as [-> | ->].
  - rewrite (timer_callback_step2 hb sp s M), Ha. cbv zeta.
    split; [exact M |]. repeat (split; [assumption |]). exact Ht.
  - rewrite (timer_callback_step4 hb sp s M), Ha. cbv zeta.
    split; [exact M |]. repeat (split; [assumption |]). exact Ht.
Qed.

Lemma view_step5 (hb sp : Z) (s : Node) (home pos : Vec3) (yaw : R)
    (target : option Vec3) :
  mission_view s 5 home pos yaw target ->
  mission_view (timer_callback hb sp s) 6 home pos yaw target.
Proof.
  intros (M & Hh & Hp & Hy & Ht).
  rewrite (timer_callback_step5 hb sp s M).
  destruct M as (Hv & Hr & Hc & _).
  split; [repeat (split; [assumption |]); reflexivity |].
  repeat (split; [assumption |]). exact Ht.
Qed.

Lemma blind_flight_mission_at : mission_at (run init blind_flight) 2.
Proof.
  unfold mission_at. split; [| split; [| split]].
  - lazy. discriminate.
  - lazy. reflexivity.
  - lazy. reflexivity.
  - lazy. reflexivity.
Qed.

Lemma blind_flight_view :
  mission_view (run init blind_flight) 2 (mkVec3 0 0 0) (mkVec3 0 0 0) 0
    (Some (mkVec3 0 1 0)).
Proof.
  pose proof blind_flight_mission_at as M.
  pose proof (run_no_position blind_flight init eq_refl no_position_inv_init)
    as (Hp & Hh & Hl).
  set (s := run init blind_flight) in *. clearbody s.
  destruct (last_traj_setpoint_msg s) as [msg |] eqn:El;
    [destruct Hl as [Hm _] | destruct M as (_ & _ & _ & K); lia].
  split; [exact M |]. split; [exact Hh |]. split; [| split].
  - unfold get_current_ned_pos. rewrite Hp, Hh.
    apply vec3_eq; cbn; ring.
  - rewrite Hp. reflexivity.
  - unfold get_traj_setpoint, get_ned_pos. rewrite El, Hm, Hh.
    f_equal. apply vec3_eq; cbn; ring.
Qed.

(** The scripted flight runs to the last step: out one metre east (the
    right-hand side at yaw 0), back to the start. *)
Lemma full_flight_view :
  mission_view (run init full_flight) final_step (mkVec3 0 0 0) (mkVec3 0 0 0)
    0 (Some (mkVec3 0 0 0)).
Proof.
  unfold full_flight. rewrite run_app.
  pose proof blind_flight_view as V.
  set (s2 := run init blind_flight) in *. clearbody s2.
  rewrite !run_cons. cbn [run fold_left step].
  (* the estimate reports the vehicle one metre east *)
  apply (view_position at_east) in V.
  replace (mkVec3 (lp_x at_east - v0 (mkVec3 0 0 0))
                  (lp_y at_east - v1 (mkVec3 0 0 0))
                  (lp_z at_east - v2 (mkVec3 0 0 0)))
    with (mkVec3 0 1 0) in V by (apply vec3_eq; cbn; ring).
  change (lp_heading at_east) with 0 in V.
  set (s3 := vehicle_local_position_callback at_east s2) in *. clearbody s3.
  apply (view_step_arrived 0 0) in V;
    [| left; reflexivity | rewrite distance_self; lra].
  set (s4 := timer_callback 0 0 s3) in *. clearbody s4.
  apply (view_step3 0 0) in V.
  replace (mkVec3 (v0 (mkVec3 0 1 0) + (0 * cos 0 + 1 * sin 0))
                  (v1 (mkVec3 0 1 0) + (0 * sin 0 - 1 * cos 0))
                  (v2 (mkVec3 0 1 0) - 0))
    with (mkVec3 0 0 0) in V
    by (rewrite cos_0, sin_0; apply vec3_eq; cbn; ring).
  set (s5 := timer_callback 0 0 s4) in *. clearbody s5.
  (* the estimate reports the vehicle back at the start *)
  apply (view_position at_home) in V.
  replace (mkVec3 (lp_x at_home - v0 (mkVec3 0 0 0))
                  (lp_y at_home - v1 (mkVec3 0 0 0))
                  (lp_z at_home - v2 (mkVec3 0 0 0)))
    with (mkVec3 0 0 0) in V by (apply vec3_eq; cbn; ring).
  change (lp_heading at_home) with 0 in V.
  set (s6 := vehicle_local_position_callback at_home s5) in *. clearbody s6.
  apply (view_step_arrived 0 0) in V;
    [| right; reflexivity | rewrite distance_self; lra].
  set (s7 := timer_callback 0 0 s6) in *. clearbody s7.
  apply (view_step5 0 0) in V. exact V.
Qed.

(** In the last step a tick changes nothing but the heartbeat publisher and
    the debounce counter. *)
Lemma timer_callback_final_frame (now_hb now_sp : Z) (s : Node) :
  status_var_temp s = final_step ->
  timer_callback now_hb now_sp s
  = set_initialization_counter
      (initialization_counter (timer_callback now_hb now_sp s))
      (publish_offboard_control_heartbeat_signal now_hb s).
Proof.
  unfold final_step. intro H.
  destruct s as [a f o ats fts c h l st vs lp od bs p1 p2].
  cbn in H. subst st. unfold timer_callback. cbn.
  destruct vs; [| reflexivity].
  destruct a, f, o; cbn; try reflexivity.
  destruct (50 <=? c)%Z; reflexivity.
Qed.

(** After the mission is over, a disarm followed by a re-arm resets the
    debounce counter, and the next tick counts again. *)
Lemma rearm_recounts (s : Node) :
  status_var_temp s = final_step ->
  let s' := vehicle_status_callback ready_status
              (vehicle_status_callback disarmed_status s) in
  status_var_temp s' = final_step /\
  initialization_counter s' = 0%Z /\
  status_var_temp (timer_callback 0 0 s') = final_step /\
  initialization_counter (timer_callback 0 0 s') = 1%Z.
Proof.
  unfold final_step. intro H. cbv zeta.
  destruct s as [a f o ats fts c h l st vs lp od bs p1 p2].
  cbn in H. subst st.
  unfold vehicle_status_callback, timer_callback. cbn.
  repeat split; reflexivity.
Qed.

(** C10, as stated, fails for the debounce counter, which belongs to the
    mission state: after the scripted flight has reached step 6, a disarm
    and a re-arm leave the counter at 0 and the next tick raises it to 1. *)
Lemma final_step_counter_changes :
  status_var_temp (run init rearmed_flight) = final_step /\
  initialization_counter (run init rearmed_flight) = 0%Z /\
  status_var_temp (step (run init rearmed_flight) (EvTimer 0 0)) = final_step /\
  initialization_counter (step (run init rearmed_flight) (EvTimer 0 0))
  <> initialization_counter (run init rearmed_flight).
Proof.
  pose proof full_flight_view as ((_ & _ & _ & Hk) & _).
  unfold rearmed_flight. rewrite run_app.
  set (s := run init full_flight) in *. clearbody s.
  rewrite !run_cons. cbn [run fold_left step].
  destruct (rearm_recounts s Hk) as (H1 & H2 & H3 & H4).
  rewrite H1, H2, H3, H4. repeat split. discriminate.
Qed.

(** C10, amended: along every sequence of ticks and telemetry callbacks from
    start-up the mission step stays within 0..6, no delivery lowers it, a
    tick raises it by at most one, a telemetry callback leaves it alone, and
    once it is 6 no later delivery changes it or the recorded setpoint, and
    nothing goes out on the setpoint topic; a tick in step 6 changes nothing
    but the heartbeat publisher and the debounce counter. *)
Theorem mission_step_monotone (pre post : list event) (e : event) :
  let a := run init pre in
  let b := step a e in
  let c := run b post in
  (0 <= status_var_temp a <= final_step)%Z /\
  (status_var_temp b = status_var_temp a \/
   status_var_temp b = (status_var_temp a + 1)%Z) /\
  (is_timer_event e = false -> status_var_temp b = status_var_temp a) /\
  (status_var_temp b <= status_var_temp c)%Z /\
  (status_var_temp a = final_step ->
   status_var_temp b = final_step /\
   status_var_temp c = final_step /\
   last_traj_setpoint_msg b = last_traj_setpoint_msg a /\
   last_traj_setpoint_msg c = last_traj_setpoint_msg a /\
   trajectory_setpoint_publisher b = trajectory_setpoint_publisher a /\
   trajectory_setpoint_publisher c = trajectory_setpoint_publisher a /\
   forall now_hb now_sp,
     timer_callback now_hb now_sp a
     = set_initialization_counter
         (initialization_counter (timer_callback now_hb now_sp a))
         (publish_offboard_control_heartbeat_signal now_hb a)).
Proof.
  intros a b c. split; [| split; [| split; [| split]]].
  - apply run_range. cbn. unfold final_step. lia.
  - apply step_status_var_temp.
  - intro E. apply step_other_mission. exact E.
  - apply run_monotone.
  - intro H.
    destruct (step_final a e H) as (Hs & Hl & Hp).
    destruct (run_final b post Hs) as (Hs' & Hl' & Hp').
    fold c in Hs', Hl', Hp'. fold b in Hs, Hl, Hp.
    rewrite Hl', Hp'.
    repeat (split; [assumption || reflexivity |]).
    intros now_hb now_sp. apply timer_callback_final_frame. exact H.
Qed.

Lemma mission_step_monotone_witness :
  status_var_temp (run init full_flight) = final_step /\
  status_var_temp (step (run init full_flight) (EvTimer 0 0)) = final_step /\
  last_traj_setpoint_msg (step (run init full_flight) (EvTimer 0 0))
  = last_traj_setpoint_msg (run init full_flight).
Proof.
  pose proof full_flight_view as ((_ & _ & _ & Hk) & _).
  destruct (mission_step_monotone full_flight [] (EvTimer 0 0))
    as (_ & _ & _ & _ & Hfinal).
  destruct (Hfinal Hk) as (Hb & _ & Hl & _).
  split; [exact Hk |]. split; [exact Hb | exact Hl].
Defined.

(** * Further properties of the code *)

(** ** Heading and yaw conversions *)

Lemma pymod_periodic (a m : R) (k : Z) :
  0 < m -> pymod (a + IZR k * m) m = pymod a m.
Proof.
  intro Hm. unfold pymod.
  assert (Hq : (Int_part (a / m) + k)%Z = Int_part ((a + IZR k * m) / m)).
  { apply Int_part_spec.
    destruct (base_Int_part (a / m)) as [Hle Hgt].
    replace ((a + IZR k * m) / m) with (a / m + IZR k) by (field; lra).
    rewrite plus_IZR. lra. }
  rewrite <- Hq, plus_IZR. ring.
Qed.

Lemma heading_yaw_round_trip_witness :
  px4_yaw_to_heading (heading_to_px4_yaw 270) = 270.
Proof. apply (heading_yaw_round_trip 270). lra. Defined.

(** X2: over the reals (floats idealised, rounding left out), a PX4 yaw in
    [(-PI, PI]] survives the trip to a heading in degrees and back. *)
Theorem yaw_heading_round_trip (yaw : R) :
  - PI < yaw <= PI -> heading_to_px4_yaw (px4_yaw_to_heading yaw) = yaw.
Proof.
  intro H. unfold px4_yaw_to_heading.
  assert (HPI := PI_RGT_0).
  set (d := yaw * (180 / PI)).
  assert (Hd : d * PI = yaw * 180) by (unfold d; field; lra).
  assert (Hy : yaw = d * (PI / 180)) by (unfold d; field; lra).
  destruct (Rle_or_lt 0 yaw) as [Hpos | Hneg].
  - assert (0 <= d <= 180) by (split; nra).
    rewrite pymod_small by lra.
    rewrite heading_to_px4_yaw_low by lra. symmetry. exact Hy.
  - assert (-180 < d < 0) by (split; nra).
    rewrite pymod_negative by lra.
    rewrite heading_to_px4_yaw_high by lra.
    rewrite Hy. field.
Qed.

Lemma yaw_heading_round_trip_witness :
  heading_to_px4_yaw (px4_yaw_to_heading (- (PI / 2))) = - (PI / 2).
Proof.
  apply (yaw_heading_round_trip (- (PI / 2))).
  assert (HPI := PI_RGT_0). lra.
Defined.

(** X3: over the reals (floats idealised, rounding left out), whatever the
    yaw, [px4_yaw_to_heading] returns a heading in [[0, 360)], and yaws that
    differ by whole turns give the same heading. *)
Theorem px4_yaw_to_heading_range (yaw : R) (turns : Z) :
  0 <= px4_yaw_to_heading yaw < 360 /\
  px4_yaw_to_heading (yaw + IZR turns * (2 * PI)) = px4_yaw_to_heading yaw.
Proof.
  split.
  - unfold px4_yaw_to_heading. apply pymod_range. lra.
  - unfold px4_yaw_to_heading.
    assert (HPI := PI_RGT_0).
    replace ((yaw + IZR turns * (2 * PI)) * (180 / PI))
      with (yaw * (180 / PI) + IZR turns * 360) by (field; lra).
    apply pymod_periodic. lra.
Qed.

(** X4: headings that differ by a multiple of 360 degrees, negative ones
    included, convert to the same yaw. *)
Theorem heading_to_px4_yaw_periodic (h : R) (turns : Z) :
  heading_to_px4_yaw (h + IZR turns * 360) = heading_to_px4_yaw h.
Proof.
  rewrite !heading_to_px4_yaw_unfold.
  rewrite pymod_periodic by lra. reflexivity.
Qed.

(** ** Frame transform *)

(** X5: over the reals (floats idealised, rounding left out), for every yaw
    the point returned by [ned_point_from_flu_offset] lies exactly as far from
    the current position as the offset is long: the transform rotates and
    mirrors, it never stretches. *)
Theorem ned_point_from_flu_offset_isometry (s : Node) (pos off : Vec3) :
  distance pos (ned_point_from_flu_offset s pos off)
  = sqrt (v0 off ^ 2 + v1 off ^ 2 + v2 off ^ 2).
Proof.
  unfold distance, ned_point_from_flu_offset. cbn [v0 v1 v2].
  set (psi := lp_heading (vehicle_local_position s)).
  pose proof (sin2_cos2 psi) as H. unfold Rsqr in H.
  f_equal.
  replace (v0 off ^ 2 + v1 off ^ 2 + v2 off ^ 2)
    with ((v0 off ^ 2 + v1 off ^ 2) * (sin psi * sin psi + cos psi * cos psi)
          + v2 off ^ 2) by (rewrite H; ring).
  ring.
Qed.

(** X6: over the reals (floats idealised, rounding left out), offsets
    applied one after the other at the same yaw add up; in particular the
    zero offset changes nothing and the opposite offset returns to the
    starting point. *)
Theorem ned_point_from_flu_offset_additive (s : Node) (pos a b : Vec3) :
  ned_point_from_flu_offset s (ned_point_from_flu_offset s pos a) b
  = ned_point_from_flu_offset s pos (vadd a b) /\
  ned_point_from_flu_offset s pos (mkVec3 0 0 0) = pos /\
  ned_point_from_flu_offset s (ned_point_from_flu_offset s pos a)
    (mkVec3 (- v0 a) (- v1 a) (- v2 a)) = pos.
Proof.
  unfold ned_point_from_flu_offset, vadd.
  repeat split; apply vec3_eq; cbn [v0 v1 v2]; ring.
Qed.

(** ** Setpoint bookkeeping *)

(** X7: over the reals (floats idealised, rounding left out), a setpoint
    that was recorded reads back unchanged: the home offset added by
    [publish_trajectory_setpoint] is the one [get_traj_setpoint] takes off
    again. *)
Theorem get_traj_setpoint_after_publish
    (target : Vec3) (yaw : option R) (now_ns : Z) (s : Node) :
  get_traj_setpoint (publish_trajectory_setpoint target yaw now_ns s)
  = Some target.
Proof.
  unfold get_traj_setpoint, publish_trajectory_setpoint, get_ned_pos.
  cbn [last_traj_setpoint_msg set_last_traj_setpoint_msg ts_position
       home_coord_offset v0 v1 v2].
  f_equal. apply vec3_eq; cbn [v0 v1 v2]; ring.
Qed.

(** X8: recording a setpoint overwrites the previous one without a trace:
    recording twice leaves the node exactly as recording the second setpoint
    alone would. *)
Theorem publish_trajectory_setpoint_overwrites
    (p1 p2 : Vec3) (yaw1 yaw2 : option R) (now1 now2 : Z) (s : Node) :
  publish_trajectory_setpoint p2 yaw2 now2
    (publish_trajectory_setpoint p1 yaw1 now1 s)
  = publish_trajectory_setpoint p2 yaw2 now2 s.
Proof.
  unfold publish_trajectory_setpoint, set_last_traj_setpoint_msg.
  cbn [isArmed isFlying isOffboard arm_timestamp flight_start_timestamp
       initialization_counter home_coord_offset last_traj_setpoint_msg
       status_var_temp vehicle_status vehicle_local_position vehicle_odometry
       battery_status offboard_control_mode_publisher
       trajectory_setpoint_publisher].
  reflexivity.
Qed.

Lemma is_at_traj_setpoint_raw (s : Node) (t : R) :
  is_at_traj_setpoint s t
  = match last_traj_setpoint_msg s with
    | None => false
    | Some msg =>
        Rltb (distance (mkVec3 (lp_x (vehicle_local_position s))
                               (lp_y (vehicle_local_position s))
                               (lp_z (vehicle_local_position s)))
                       (ts_position msg)) t
    end.
Proof.
  destruct (last_traj_setpoint_msg s) as [msg |] eqn:El.
  - rewrite (is_at_traj_setpoint_some s msg t El).
    unfold is_at_position, get_current_ned_pos, get_ned_pos, distance.
    cbn [v0 v1 v2].
    match goal with
    | |- (if Rltb (sqrt ?a) t then true else false) = Rltb (sqrt ?b) t =>
        replace a with b by ring
    end.
    destruct (Rltb _ t); reflexivity.
  - unfold is_at_traj_setpoint. rewrite El. reflexivity.
Qed.

(** X9: over the reals (floats idealised, rounding left out), the arrival
    answer does not depend on the home offset: the offset cancels between
    the position estimate and the stored absolute setpoint, so latching a
    different home offset never changes it. *)
Theorem is_at_traj_setpoint_home_independent (s : Node) (home : Vec3) (t : R) :
  is_at_traj_setpoint (set_home_coord_offset home s) t
  = is_at_traj_setpoint s t.
Proof. rewrite !is_at_traj_setpoint_raw. reflexivity. Qed.

(** X10: an arrival needs a positive threshold, and whoever has arrived
    within one threshold has arrived within every larger one. *)
Theorem is_at_traj_setpoint_threshold (s : Node) (t t' : R) :
  is_at_traj_setpoint s t = true ->
  t <= t' ->
  0 < t /\ is_at_traj_setpoint s t' = true.
Proof.
  rewrite !is_at_traj_setpoint_raw.
  destruct (last_traj_setpoint_msg s) as [msg |]; [| discriminate].
  intros H Hle. apply Rltb_true in H.
  pose proof (distance_nonneg
                (mkVec3 (lp_x (vehicle_local_position s))
                        (lp_y (vehicle_local_position s))
                        (lp_z (vehicle_local_position s)))
                (ts_position msg)) as H0.
  split; [lra |]. apply Rltb_true. lra.
Qed.

Lemma is_at_traj_setpoint_threshold_witness :
  0 < 2 /\ is_at_traj_setpoint one_metre_east 3 = true.
Proof.
  apply (is_at_traj_setpoint_threshold one_metre_east 2 3); [| lra].
  rewrite (is_at_traj_setpoint_some one_metre_east _ 2 eq_refl).
  apply is_at_position_true. cbn [ts_position].
  rewrite one_metre_east_distance. lra.
Defined.

(** X11: a setpoint recorded at the current home-relative position counts as
    reached at once, for every positive threshold. *)
Theorem is_at_traj_setpoint_here
    (yaw : option R) (now_ns : Z) (s : Node) (t : R) :
  0 < t ->
  is_at_traj_setpoint
    (publish_trajectory_setpoint (get_current_ned_pos s) yaw now_ns s) t
  = true.
Proof.
  intro Ht. rewrite is_at_traj_setpoint_raw.
  unfold publish_trajectory_setpoint, get_current_ned_pos, distance.
  cbn [last_traj_setpoint_msg set_last_traj_setpoint_msg ts_position
       vehicle_local_position v0 v1 v2].
  apply Rltb_true.
  match goal with
  | |- sqrt ?a < t => replace a with 0 by ring
  end.
  rewrite sqrt_0. exact Ht.
Qed.

Lemma is_at_traj_setpoint_here_witness :
  is_at_traj_setpoint
    (publish_trajectory_setpoint (get_current_ned_pos awaiting_arrival) None 0
       awaiting_arrival) 0.05
  = true.
Proof. apply (is_at_traj_setpoint_here None 0 awaiting_arrival 0.05). lra. Defined.

(** X12: the terrain check never passes on an invalid distance reading, and
    a reading that is safe for one clearance is safe for every smaller
    one. *)
Theorem check_terrain_safe_monotone (s : Node) (t t' : R) :
  check_terrain_safe s t = true ->
  t' <= t ->
  lp_dist_bottom_valid (vehicle_local_position s) = true /\
  check_terrain_safe s t' = true.
Proof.
  unfold check_terrain_safe. intros H Hle.
  destruct (Rltb t (lp_dist_bottom (vehicle_local_position s))) eqn:E;
    [| discriminate H].
  destruct (lp_dist_bottom_valid (vehicle_local_position s));
    [| discriminate H].
  split; [reflexivity |].
  apply Rltb_true in E.
  assert (E' : Rltb t' (lp_dist_bottom (vehicle_local_position s)) = true)
    by (apply Rltb_true; lra).
  rewrite E'. reflexivity.
Qed.

Lemma check_terrain_safe_monotone_witness :
  lp_dist_bottom_valid (vehicle_local_position hovering) = true /\
  check_terrain_safe hovering 0.5 = true.
Proof.
  apply (check_terrain_safe_monotone hovering 1 0.5); [| lra].
  unfold check_terrain_safe. cbn.
  assert (E : Rltb 1 2 = true) by (apply Rltb_true; lra).
  rewrite E. reflexivity.
Defined.

(** ** Readiness tracking along an execution *)

(** Splits a goal about one tick into the branches of [timer_callback]. *)
Ltac tick_branches s :=
  unfold timer_callback;
  cbn [publish_offboard_control_heartbeat_signal publish_offboard_control_mode
       vehicle_status isArmed isFlying isOffboard initialization_counter
       status_var_temp];
  repeat match goal with
         | |- context [match vehicle_status s with _ => _ end] =>
             destruct (vehicle_status s) eqn:?
         | |- context [if ?b then _ else _] => destruct b eqn:?
         end.

(** A tick leaves every telemetry snapshot, every readiness flag, both
    timestamps and the home offset exactly as they were. *)
Lemma timer_callback_frame (now_hb now_sp : Z) (s : Node) :
  let s' := timer_callback now_hb now_sp s in
  vehicle_status s' = vehicle_status s /\
  vehicle_local_position s' = vehicle_local_position s /\
  vehicle_odometry s' = vehicle_odometry s /\
  battery_status s' = battery_status s /\
  isArmed s' = isArmed s /\
  isFlying s' = isFlying s /\
  isOffboard s' = isOffboard s /\
  arm_timestamp s' = arm_timestamp s /\
  flight_start_timestamp s' = flight_start_timestamp s /\
  home_coord_offset s' = home_coord_offset s.
Proof.
  cbv zeta. tick_branches s; cbn; repeat split; reflexivity || assumption.
Qed.

Lemma vehicle_status_callback_consistent (m : VehicleStatus) (s : Node) :
  readiness_consistent s -> readiness_consistent (vehicle_status_callback m s).
Proof.
  intros (Ha & Hf & _). unfold readiness_consistent, vehicle_status_callback.
  cbn.
  destruct (arming_state m =? 2)%Z eqn:E1; cbn;
    destruct (0 <? takeoff_time m)%Z eqn:E2; cbn;
    destruct (arm_timestamp s) eqn:E3; cbn;
    destruct (flight_start_timestamp s) eqn:E4; cbn;
    rewrite ?E1, ?E2, ?E3, ?E4;
    repeat split; intros; try reflexivity; try discriminate; congruence.
Qed.

Lemma timer_callback_consistent (now_hb now_sp : Z) (s : Node) :
  readiness_consistent s ->
  readiness_consistent (timer_callback now_hb now_sp s).
Proof.
  intro H. unfold readiness_consistent.
  destruct (timer_callback_frame now_hb now_sp s)
    as (-> & _ & _ & _ & -> & -> & -> & -> & -> & _).
  exact H.
Qed.

(** X13: after any sequence of ticks and callbacks from start-up the
    readiness model is consistent: the node is armed exactly when it holds an
    arm timestamp, flying exactly when it holds a flight-start timestamp, and
    the three flags are those of the last status message (all false before
    the first one). *)
Theorem run_readiness_consistent (evs : list event) :
  readiness_consistent (run init evs).
Proof.
  assert (G : forall s, readiness_consistent s ->
                        readiness_consistent (run s evs)).
  { induction evs as [| e evs IH]; intros s H; [exact H |].
    rewrite run_cons. apply IH.
    destruct e as [m | m | m | m | hb sp]; cbn [step].
    - apply vehicle_status_callback_consistent. exact H.
    - exact H.
    - exact H.
    - exact H.
    - apply timer_callback_consistent. exact H. }
  apply G. unfold readiness_consistent. cbn.
  repeat split; intros; try reflexivity; try discriminate; congruence.
Qed.

(** X14: the status update that first reports the vehicle airborne latches
    the current position estimate as home offset and the message time as
    flight start; from then on the home-relative position is the origin until
    the estimate moves. *)
Theorem vehicle_status_callback_takeoff (m : VehicleStatus) (s : Node) :
  flight_start_timestamp s = None ->
  (0 < takeoff_time m)%Z ->
  let s' := vehicle_status_callback m s in
  flight_start_timestamp s' = Some (timestamp m) /\
  home_coord_offset s'
  = mkVec3 (lp_x (vehicle_local_position s)) (lp_y (vehicle_local_position s))
           (lp_z (vehicle_local_position s)) /\
  get_current_ned_pos s' = mkVec3 0 0 0.
Proof.
  intros Hf Ht s'. subst s'.
  apply Z.ltb_lt in Ht.
  unfold get_current_ned_pos, vehicle_status_callback. cbn.
  rewrite Ht. cbn.
  destruct (arming_state m =? 2)%Z; cbn;
    destruct (arm_timestamp s); cbn; rewrite Hf; cbn;
    (split; [reflexivity |]; split; [reflexivity |];
     apply vec3_eq; cbn; ring).
Qed.

Lemma vehicle_status_callback_takeoff_witness :
  home_coord_offset (vehicle_status_callback ready_status grounded)
  = mkVec3 3 4 0 /\
  get_current_ned_pos (vehicle_status_callback ready_status grounded)
  = mkVec3 0 0 0.
Proof.
  destruct (vehicle_status_callback_takeoff ready_status grounded)
    as (_ & Hh & Hp).
  - reflexivity.
  - reflexivity.
  - split; [exact Hh | exact Hp].
Defined.

Lemma vehicle_status_callback_in_flight (m : VehicleStatus) (s : Node) :
  flight_start_timestamp s <> None ->
  status_flying m = true ->
  flight_start_timestamp (vehicle_status_callback m s)
  = flight_start_timestamp s /\
  home_coord_offset (vehicle_status_callback m s) = home_coord_offset s.
Proof.
  unfold status_flying. intros Hf Ht.
  destruct s as [a f o ats fts c h l st vs lp od bs p1 p2].
  unfold vehicle_status_callback. cbn in *. rewrite Ht.
  destruct fts as [t0 |]; [| contradiction Hf; reflexivity].
  destruct (arming_state m =? 2)%Z; cbn;
    destruct ats; cbn; split; reflexivity.
Qed.

(** X15: the home offset is latched once per flight: as long as every status
    message reports the vehicle airborne, no delivery changes the home offset
    or the flight-start timestamp, however the position estimate moves. *)
Theorem home_coord_offset_latched_once (s : Node) (evs : list event) :
  flight_start_timestamp s <> None ->
  status_events_all status_flying evs = true ->
  flight_start_timestamp (run s evs) = flight_start_timestamp s /\
  home_coord_offset (run s evs) = home_coord_offset s.
Proof.
  revert s. induction evs as [| e evs IH]; intros s Hf Hev; [auto |].
  cbn in Hev. apply andb_prop in Hev. destruct Hev as [He Hev].
  rewrite run_cons.
  assert (Hstep : flight_start_timestamp (step s e) = flight_start_timestamp s
                  /\ home_coord_offset (step s e) = home_coord_offset s).
  { destruct e as [m | m | m | m | hb sp]; cbn [step].
    - apply vehicle_status_callback_in_flight; assumption.
    - split; reflexivity.
    - split; reflexivity.
    - split; reflexivity.
    - destruct (timer_callback_frame hb sp s)
        as (_ & _ & _ & _ & _ & _ & _ & _ & H1 & H2).
      split; assumption. }
  destruct Hstep as [H1 H2].
  destruct (IH (step s e)) as [H3 H4]; [rewrite H1; exact Hf | exact Hev |].
  rewrite H3, H4. split; assumption.
Qed.

Lemma home_coord_offset_latched_once_witness :
  flight_start_timestamp
    (run awaiting_arrival
       [EvVehicleLocalPosition at_east; EvVehicleStatus ready_status;
        EvTimer 0 0])
  = flight_start_timestamp awaiting_arrival /\
  home_coord_offset
    (run awaiting_arrival
       [EvVehicleLocalPosition at_east; EvVehicleStatus ready_status;
        EvTimer 0 0])
  = home_coord_offset awaiting_arrival.
Proof.
  apply (home_coord_offset_latched_once awaiting_arrival).
  - cbn. discriminate.
  - reflexivity.
Defined.

Lemma vehicle_status_callback_counter_eq (m : VehicleStatus) (s : Node) :
  initialization_counter (vehicle_status_callback m s)
  = (if status_armed m then initialization_counter s else 0%Z).
Proof.
  unfold status_armed, vehicle_status_callback. cbn.
  destruct (arming_state m =? 2)%Z; cbn;
    destruct (0 <? takeoff_time m)%Z; cbn;
    destruct (arm_timestamp s); cbn;
    destruct (flight_start_timestamp s); reflexivity.
Qed.

Lemma vehicle_status_callback_arm_timestamp (m : VehicleStatus) (s : Node)
    (t0 : Z) :
  status_armed m = true ->
  arm_timestamp s = Some t0 ->
  arm_timestamp (vehicle_status_callback m s) = Some t0.
Proof.
  unfold status_armed. intros Hm Ha.
  destruct s as [a f o ats fts c h l st vs lp od bs p1 p2].
  unfold vehicle_status_callback. cbn in *. rewrite Hm, Ha. cbn.
  destruct (0 <? takeoff_time m)%Z; cbn; destruct fts; reflexivity.
Qed.

Lemma timer_callback_counter_grows (now_hb now_sp : Z) (s : Node) :
  (initialization_counter s
   <= initialization_counter (timer_callback now_hb now_sp s))%Z.
Proof. tick_branches s; cbn; lia. Qed.

(** X16: the debounce is only reset by disarming: along any execution whose
    status messages all report the vehicle armed, even when they report it
    landed or out of offboard mode, the debounce counter never decreases and
    the arm timestamp stays that of the first armed message. *)
Theorem counter_kept_while_armed (s : Node) (evs : list event) (t0 : Z) :
  arm_timestamp s = Some t0 ->
  status_events_all status_armed evs = true ->
  (initialization_counter s <= initialization_counter (run s evs))%Z /\
  arm_timestamp (run s evs) = Some t0.
Proof.
  revert s. induction evs as [| e evs IH]; intros s Ha Hev.
  - split; [cbn; lia | exact Ha].
  - cbn in Hev. apply andb_prop in Hev. destruct Hev as [He Hev].
    rewrite run_cons.
    assert (Hstep : (initialization_counter s
                     <= initialization_counter (step s e))%Z /\
                    arm_timestamp (step s e) = Some t0).
    { destruct e as [m | m | m | m | hb sp]; cbn [step].
      - rewrite vehicle_status_callback_counter_eq, He.
        split; [lia |].
        apply vehicle_status_callback_arm_timestamp; assumption.
      - split; [cbn; lia | exact Ha].
      - split; [cbn; lia | exact Ha].
      - split; [cbn; lia | exact Ha].
      - split; [apply timer_callback_counter_grows |].
        destruct (timer_callback_frame hb sp s)
          as (_ & _ & _ & _ & _ & _ & _ & H1 & _).
        rewrite H1. exact Ha. }
    destruct Hstep as [H1 H2].
    destruct (IH (step s e) H2 Hev) as [H3 H4].
    split; [lia | exact H4].
Qed.

Lemma counter_kept_while_armed_witness :
  (initialization_counter awaiting_arrival
   <= initialization_counter
        (run awaiting_arrival
           [EvVehicleStatus (mkVehicleStatus 3000 2 0 2); EvTimer 0 0]))%Z /\
  arm_timestamp
    (run awaiting_arrival
       [EvVehicleStatus (mkVehicleStatus 3000 2 0 2); EvTimer 0 0])
  = Some 1000%Z.
Proof.
  apply (counter_kept_while_armed awaiting_arrival); reflexivity.
Defined.

Lemma timer_callback_counter (now_hb now_sp : Z) (s : Node) :
  (0 <= initialization_counter s <= 50)%Z ->
  (initialization_counter s
   <= initialization_counter (timer_callback now_hb now_sp s) <= 50)%Z /\
  (initialization_counter (timer_callback now_hb now_sp s)
   <= initialization_counter s + 1)%Z.
Proof.
  intro H. tick_branches s; cbn;
    repeat match goal with
           | E : (_ <=? _)%Z = false |- _ => apply Z.leb_gt in E
           end; lia.
Qed.

(** X17: from start-up the debounce counter stays between 0 and 50, whatever
    is delivered. *)
Theorem initialization_counter_bounded (evs : list event) :
  (0 <= initialization_counter (run init evs) <= 50)%Z.
Proof.
  assert (G : forall s, (0 <= initialization_counter s <= 50)%Z ->
                        (0 <= initialization_counter (run s evs) <= 50)%Z).
  { induction evs as [| e evs IH]; intros s H; [exact H |].
    rewrite run_cons. apply IH.
    destruct e as [m | m | m | m | hb sp]; cbn [step].
    - rewrite vehicle_status_callback_counter_eq.
      destruct (status_armed m); lia.
    - exact H.
    - exact H.
    - exact H.
    - pose proof (timer_callback_counter hb sp s H). lia. }
  apply G. cbn. lia.
Qed.

(** ** The control loop along an execution *)

Lemma timer_callback_not_yet (now_hb now_sp : Z) (s : Node) :
  (initialization_counter s < 50)%Z ->
  status_var_temp (timer_callback now_hb now_sp s) = status_var_temp s /\
  last_traj_setpoint_msg (timer_callback now_hb now_sp s)
  = last_traj_setpoint_msg s /\
  (initialization_counter (timer_callback now_hb now_sp s)
   <= initialization_counter s + 1)%Z.
Proof.
  intro H. tick_branches s; cbn;
    repeat match goal with
           | E : (_ <=? _)%Z = true |- _ => apply Z.leb_le in E
           end; try lia; repeat split; try reflexivity; lia.
Qed.

Lemma run_not_yet (evs : list event) (s : Node) (c : Z) :
  (0 <= c)%Z ->
  (initialization_counter s <= c)%Z ->
  (c + timer_count evs <= 50)%Z ->
  status_var_temp (run s evs) = status_var_temp s /\
  last_traj_setpoint_msg (run s evs) = last_traj_setpoint_msg s.
Proof.
  revert s c. induction evs as [| e evs IH]; intros s c H0 Hc Hn; [auto |].
  rewrite run_cons.
  unfold timer_count in *.
  destruct e as [m | m | m | m | hb sp]; cbn [step];
    cbn [filter is_timer_event length] in Hn.
  - destruct (vehicle_status_callback_mission m s) as (Hs & Hl & _).
    pose proof (vehicle_status_callback_counter_eq m s) as Hk.
    destruct (IH (vehicle_status_callback m s) c H0) as [H1 H2];
      [rewrite Hk; destruct (status_armed m); lia | exact Hn |].
    rewrite H1, H2. auto.
  - exact (IH (vehicle_local_position_callback m s) c H0 Hc Hn).
  - exact (IH (vehicle_odometry_callback m s) c H0 Hc Hn).
  - exact (IH (battery_status_callback m s) c H0 Hc Hn).
  - destruct (timer_callback_not_yet hb sp s) as (Hs & Hl & Hk); [lia |].
    destruct (IH (timer_callback hb sp s) (c + 1)%Z) as [H1 H2];
      [lia | lia | lia |].
    rewrite H1, H2. auto.
Qed.

(** X18: the mission cannot start early: after start-up, as long as the
    timer has fired at most 50 times the mission is still in step 0 and no
    setpoint has been recorded, whatever the telemetry says. *)
Theorem mission_waits_fifty_ticks (evs : list event) :
  (timer_count evs <= 50)%Z ->
  status_var_temp (run init evs) = 0%Z /\
  last_traj_setpoint_msg (run init evs) = None.
Proof.
  intro H. apply (run_not_yet evs init 0%Z); cbn; lia.
Qed.

Lemma mission_waits_fifty_ticks_witness :
  status_var_temp
    (run init (EvVehicleStatus ready_status :: repeat (EvTimer 0 0) 50))
  = 0%Z /\
  last_traj_setpoint_msg
    (run init (EvVehicleStatus ready_status :: repeat (EvTimer 0 0) 50))
  = None.
Proof.
  apply (mission_waits_fifty_ticks
           (EvVehicleStatus ready_status :: repeat (EvTimer 0 0) 50)).
  vm_compute. discriminate.
Defined.

Lemma step_heartbeats (s : Node) (e : event) :
  exists sent,
    offboard_control_mode_publisher (step s e)
    = offboard_control_mode_publisher s ++ sent /\
    Z.of_nat (length sent) = timer_count [e] /\
    forallb position_only sent = true.
Proof.
  destruct e as [m | m | m | m | hb sp]; cbn [step].
  - exists []. rewrite app_nil_r. repeat split.
    unfold vehicle_status_callback. cbn.
    destruct (arming_state m =? 2)%Z; cbn;
      destruct (0 <? takeoff_time m)%Z; cbn;
      destruct (arm_timestamp s); cbn;
      destruct (flight_start_timestamp s); reflexivity.
  - exists []. rewrite app_nil_r. repeat split.
  - exists []. rewrite app_nil_r. repeat split.
  - exists []. rewrite app_nil_r. repeat split.
  - exists [mkOffboardControlMode true false false false false (clock_us hb)].
    repeat split. tick_branches s; reflexivity.
Qed.

(** X19: every firing of the timer publishes exactly one heartbeat, before
    anything else and whatever the vehicle state, and each heartbeat asks for
    position control only; no telemetry callback publishes one. *)
Theorem heartbeat_every_tick (s : Node) (evs : list event) :
  exists sent,
    offboard_control_mode_publisher (run s evs)
    = offboard_control_mode_publisher s ++ sent /\
    Z.of_nat (length sent) = timer_count evs /\
    forallb position_only sent = true.
Proof.
  revert s. induction evs as [| e evs IH]; intro s.
  - exists []. rewrite app_nil_r. repeat split.
  - rewrite run_cons.
    destruct (step_heartbeats s e) as (sent1 & H1 & L1 & P1).
    destruct (IH (step s e)) as (sent2 & H2 & L2 & P2).
    exists (sent1 ++ sent2). split; [| split].
    + rewrite H2, H1, app_assoc. reflexivity.
    + rewrite length_app, Nat2Z.inj_add, L1, L2.
      unfold timer_count. cbn [filter].
      destruct (is_timer_event e); cbn [length app]; lia.
    + rewrite forallb_app, P1, P2. reflexivity.
Qed.

(** X20: the node keeps only the newest position estimate: after any
    execution the stored estimate is the last one delivered, or the previous
    one if none was; ticks and the other callbacks never alter it. *)
Theorem vehicle_local_position_newest (s : Node) (evs : list event) :
  vehicle_local_position (run s evs)
  = newest_position (vehicle_local_position s) evs.
Proof.
  revert s. induction evs as [| e evs IH]; intro s; [reflexivity |].
  rewrite run_cons, IH. unfold newest_position. cbn [fold_left].
  f_equal.
  destruct e as [m | m | m | m | hb sp]; cbn [step].
  - unfold vehicle_status_callback. cbn.
    destruct (arming_state m =? 2)%Z; cbn;
      destruct (0 <? takeoff_time m)%Z; cbn;
      destruct (arm_timestamp s); cbn;
      destruct (flight_start_timestamp s); reflexivity.
  - reflexivity.
  - reflexivity.
  - reflexivity.
  - apply timer_callback_frame.
Qed.

Lemma timer_callback_no_status (now_hb now_sp : Z) (s : Node) :
  vehicle_status s = None ->
  timer_callback now_hb now_sp s
  = publish_offboard_control_heartbeat_signal now_hb s.
Proof.
  intro H. unfold timer_callback.
  cbn [publish_offboard_control_heartbeat_signal publish_offboard_control_mode
       vehicle_status].
  rewrite H. reflexivity.
Qed.

(** X21: until the first status message arrives the control loop only sends
    heartbeats: the flags stay false, the counter and the mission step stay
    0 and no setpoint is recorded, however many ticks and other telemetry
    messages are delivered. *)
Theorem run_without_status (evs : list event) :
  no_status_events evs = true ->
  let s := run init evs in
  vehicle_status s = None /\
  isArmed s = false /\ isFlying s = false /\ isOffboard s = false /\
  initialization_counter s = 0%Z /\
  status_var_temp s = 0%Z /\
  last_traj_setpoint_msg s = None /\
  home_coord_offset s = mkVec3 0 0 0.
Proof.
  intros Hev s. subst s.
  assert (G : forall s,
             vehicle_status s = None ->
             vehicle_status (run s evs) = None /\
             isArmed (run s evs) = isArmed s /\
             isFlying (run s evs) = isFlying s /\
             isOffboard (run s evs) = isOffboard s /\
             initialization_counter (run s evs) = initialization_counter s /\
             status_var_temp (run s evs) = status_var_temp s /\
             last_traj_setpoint_msg (run s evs) = last_traj_setpoint_msg s /\
             home_coord_offset (run s evs) = home_coord_offset s).
  { induction evs as [| e evs IH]; intros s H; [repeat split; auto |].
    cbn in Hev. apply andb_prop in Hev. destruct Hev as [He Hev].
    rewrite run_cons.
    destruct e as [m | m | m | m | hb sp]; cbn [step]; cbn in He.
    - discriminate He.
    - exact (IH Hev (vehicle_local_position_callback m s) H).
    - exact (IH Hev (vehicle_odometry_callback m s) H).
    - exact (IH Hev (battery_status_callback m s) H).
    - rewrite (timer_callback_no_status hb sp s H).
      exact (IH Hev (publish_offboard_control_heartbeat_signal hb s) H). }
  apply (G init). reflexivity.
Qed.

Lemma run_without_status_witness :
  status_var_temp
    (run init [EvTimer 1 2; EvVehicleLocalPosition at_east; EvTimer 3 4])
  = 0%Z /\
  initialization_counter
    (run init [EvTimer 1 2; EvVehicleLocalPosition at_east; EvTimer 3 4])
  = 0%Z.
Proof.
  destruct (run_without_status
              [EvTimer 1 2; EvVehicleLocalPosition at_east; EvTimer 3 4])
    as (_ & _ & _ & _ & Hc & Hs & _).
  - reflexivity.
  - split; [exact Hs | exact Hc].
Defined.

(** X22: a tick records a setpoint only in mission steps 1 and 3: in every
    other step, and whenever the node is not ready, the stored setpoint is
    left as it is. *)
Theorem timer_callback_keeps_setpoint (now_hb now_sp : Z) (s : Node) :
  status_var_temp s <> 1%Z ->
  status_var_temp s <> 3%Z ->
  last_traj_setpoint_msg (timer_callback now_hb now_sp s)
  = last_traj_setpoint_msg s.
Proof.
  intros H1 H3. tick_branches s; try reflexivity;
    repeat match goal with
           | E : (_ =? _)%Z = true |- _ => apply Z.eqb_eq in E
           end; contradiction.
Qed.

Lemma timer_callback_keeps_setpoint_witness :
  last_traj_setpoint_msg (timer_callback 0 0 awaiting_arrival)
  = last_traj_setpoint_msg awaiting_arrival.
Proof.
  apply (timer_callback_keeps_setpoint 0 0 awaiting_arrival); cbn; lia.
Defined.

Lemma timer_callback_counting (now_hb now_sp : Z) (s : Node) :
  vehicle_status s <> None ->
  isArmed s && isFlying s && isOffboard s = true ->
  (initialization_counter s < 50)%Z ->
  timer_callback now_hb now_sp s
  = set_initialization_counter (initialization_counter s + 1)
      (publish_offboard_control_heartbeat_signal now_hb s).
Proof.
  intros Hv Hr Hc. unfold timer_callback.
  cbn [publish_offboard_control_heartbeat_signal publish_offboard_control_mode
       vehicle_status isArmed isFlying isOffboard initialization_counter].
  rewrite Hr. apply Z.leb_gt in Hc. rewrite Hc.
  destruct (vehicle_status s); [reflexivity | contradiction Hv; reflexivity].
Qed.

(** X23: a ready node counts every tick: with a status message received and
    the vehicle armed, flying and in offboard mode, [n] ticks raise the
    debounce counter by exactly [n] as long as it stays within 50, and leave
    the mission step and the stored setpoint alone. *)
Theorem debounce_counts_ready_ticks
    (now_hb now_sp : Z) (n : nat) (s : Node) :
  vehicle_status s <> None ->
  isArmed s && isFlying s && isOffboard s = true ->
  (initialization_counter s + Z.of_nat n <= 50)%Z ->
  let s' := run s (repeat (EvTimer now_hb now_sp) n) in
  initialization_counter s' = (initialization_counter s + Z.of_nat n)%Z /\
  status_var_temp s' = status_var_temp s /\
  last_traj_setpoint_msg s' = last_traj_setpoint_msg s.
Proof.
  cbv zeta. revert s. induction n as [| n IH]; intros s Hv Hr Hc.
  - cbn. repeat split. lia.
  - cbn [repeat]. rewrite run_cons. cbn [step].
    rewrite (timer_callback_counting now_hb now_sp s Hv Hr) by lia.
    set (s1 := set_initialization_counter _ _).
    destruct (IH s1) as (H1 & H2 & H3); [exact Hv | exact Hr | cbn; lia |].
    rewrite H1, H2, H3. cbn. repeat split. lia.
Qed.

Lemma debounce_counts_ready_ticks_witness :
  initialization_counter
    (run (vehicle_status_callback ready_status init)
         (repeat (EvTimer 0 0) 50)) = 50%Z /\
  status_var_temp
    (run (vehicle_status_callback ready_status init)
         (repeat (EvTimer 0 0) 50)) = 0%Z.
Proof.
  destruct (debounce_counts_ready_ticks 0 0 50
              (vehicle_status_callback ready_status init))
    as (Hc & Hs & _).
  - cbn. discriminate.
  - reflexivity.
  - cbn. lia.
  - split; [exact Hc | exact Hs].
Defined.

(** ** The two legs of the mission *)

Lemma mission_view_of (s : Node) (k : Z) :
  mission_at s k ->
  mission_view s k (home_coord_offset s) (get_current_ned_pos s)
    (lp_heading (vehicle_local_position s)) (get_traj_setpoint s).
Proof. intro M. repeat split; try reflexivity; apply M. Qed.

Lemma side_step_distance (pos : Vec3) (yaw side : R) :
  side * side = 1 ->
  distance pos (mkVec3 (v0 pos + (0 * cos yaw + side * sin yaw))
                       (v1 pos + (0 * sin yaw - side * cos yaw))
                       (v2 pos - 0)) = 1.
Proof.
  intro Hs. unfold distance. cbn [v0 v1 v2].
  pose proof (sin2_cos2 yaw) as H. unfold Rsqr in H.
  replace ((v0 pos - (v0 pos + (0 * cos yaw + side * sin yaw))) ^ 2
           + (v1 pos - (v1 pos + (0 * sin yaw - side * cos yaw))) ^ 2
           + (v2 pos - (v2 pos - 0)) ^ 2)
    with (side * side * (sin yaw * sin yaw + cos yaw * cos yaw)) by ring.
  rewrite H, Hs, Rmult_1_r. apply sqrt_1.
Qed.

(** In mission steps 1 and 3 a tick of a ready node records a setpoint whose
    home-relative target is one metre from the home-relative position. *)
Lemma mission_side_step_relative (now_hb now_sp : Z) (s : Node) (k : Z) :
  mission_at s k ->
  k = 1%Z \/ k = 3%Z ->
  let s' := timer_callback now_hb now_sp s in
  status_var_temp s' = (k + 1)%Z /\
  (exists msg,
     last_traj_setpoint_msg s' = Some msg /\
     ts_yaw msg = lp_heading (vehicle_local_position s)) /\
  (exists target,
     get_traj_setpoint s' = Some target /\
     distance (get_current_ned_pos s) target = 1) /\
  is_at_traj_setpoint s' 0.05 = false.
Proof.
  intros M Hk s'.
  pose proof (mission_view_of s k M) as V.
  assert (V' : exists side, side * side = 1 /\
      mission_view s' (k + 1) (home_coord_offset s) (get_current_ned_pos s)
        (lp_heading (vehicle_local_position s))
        (Some (mkVec3
           (v0 (get_current_ned_pos s)
            + (0 * cos (lp_heading (vehicle_local_position s))
               + side * sin (lp_heading (vehicle_local_position s))))
           (v1 (get_current_ned_pos s)
            + (0 * sin (lp_heading (vehicle_local_position s))
               - side * cos (lp_heading (vehicle_local_position s))))
           (v2 (get_current_ned_pos s) - 0)))).
  { destruct Hk as [-> | ->].
    - exists (-1). split; [ring |].
      apply (view_step1 now_hb now_sp s _ _ _ _ V).
    - exists 1. split; [ring |].
      apply (view_step3 now_hb now_sp s _ _ _ _ V). }
  destruct V' as (side & Hside & V').
  pose proof (side_step_distance (get_current_ned_pos s)
                (lp_heading (vehicle_local_position s)) side Hside) as Hd.
  pose proof (view_arrival s' _ _ _ _ _ 0.05 V') as Ha.
  destruct V' as ((_ & _ & _ & Hstep) & _ & _ & _ & Ht).
  split; [exact Hstep |]. split; [| split].
  - subst s'. destruct Hk as [-> | ->].
    + rewrite (timer_callback_step1 now_hb now_sp s M). cbv zeta.
      eexists. split; reflexivity.
    + rewrite (timer_callback_step3 now_hb now_sp s M). cbv zeta.
      eexists. split; reflexivity.
  - eexists. split; [exact Ht | exact Hd].
  - rewrite Ha, Hd. apply Rltb_false. lra.
Qed.

(** X24: in mission steps 1 and 3 a tick of a ready node moves to the next
    step and stores an absolute setpoint that lies, over the reals, exactly
    one metre from the raw position estimate, whatever the yaw and the home
    offset (the home offset taken off the estimate is added back before
    storing); it keeps the current heading as the commanded yaw, and the
    first arrival check (5 cm) cannot pass. *)
Theorem mission_side_step (now_hb now_sp : Z) (s : Node) (k : Z) :
  mission_at s k ->
  k = 1%Z \/ k = 3%Z ->
  let s' := timer_callback now_hb now_sp s in
  status_var_temp s' = (k + 1)%Z /\
  (exists msg,
     last_traj_setpoint_msg s' = Some msg /\
     ts_yaw msg = lp_heading (vehicle_local_position s) /\
     sqrt ((v0 (ts_position msg) - lp_x (vehicle_local_position s)) ^ 2
           + (v1 (ts_position msg) - lp_y (vehicle_local_position s)) ^ 2
           + (v2 (ts_position msg) - lp_z (vehicle_local_position s)) ^ 2)
     = 1) /\
  is_at_traj_setpoint s' 0.05 = false.
Proof.
  intros M Hk s'.
  destruct (mission_side_step_relative now_hb now_sp s k M Hk)
    as (Hs & (msg & Hl & Hy) & (target & Ht & Hd) & Ha).
  fold s' in Hs, Hl, Ht, Ha.
  split; [exact Hs |]. split; [| exact Ha].
  exists msg. split; [exact Hl |]. split; [exact Hy |].
  unfold get_traj_setpoint in Ht. rewrite Hl in Ht.
  apply (f_equal (fun o => match o with Some v => v | None => target end))
    in Ht.
  cbv beta iota in Ht. subst target.
  destruct (timer_callback_frame now_hb now_sp s)
    as (_ & _ & _ & _ & _ & _ & _ & _ & _ & Hh).
  fold s' in Hh.
  rewrite <- Hd. unfold distance, get_current_ned_pos, get_ned_pos.
  rewrite Hh. cbn [v0 v1 v2]. f_equal. ring.
Qed.

Lemma ready_to_move_offset_mission_at : mission_at ready_to_move_offset 1.
Proof. repeat split. cbn. discriminate. Qed.

Lemma mission_side_step_witness :
  home_coord_offset ready_to_move_offset = mkVec3 3 4 (-1) /\
  status_var_temp (timer_callback 0 0 ready_to_move_offset) = 2%Z /\
  is_at_traj_setpoint (timer_callback 0 0 ready_to_move_offset) 0.05 = false.
Proof.
  split; [reflexivity |].
  destruct (mission_side_step 0 0 ready_to_move_offset 1) as (Hs & _ & Ha).
  - exact ready_to_move_offset_mission_at.
  - left. reflexivity.
  - split; [exact Hs | exact Ha].
Defined.

(** The second leg in home-relative terms: with the estimate exactly at the
    first home-relative setpoint and the heading unchanged, two ticks record
    the home-relative start position. *)
Lemma mission_out_and_back_relative
    (hb1 sp1 hb2 sp2 hb3 sp3 : Z) (s : Node) (m : VehicleLocalPosition) :
  mission_at s 1 ->
  get_traj_setpoint (timer_callback hb1 sp1 s)
  = Some (mkVec3 (lp_x m - v0 (home_coord_offset s))
                 (lp_y m - v1 (home_coord_offset s))
                 (lp_z m - v2 (home_coord_offset s))) ->
  lp_heading m = lp_heading (vehicle_local_position s) ->
  let s' := run (timer_callback hb1 sp1 s)
                [EvVehicleLocalPosition m; EvTimer hb2 sp2; EvTimer hb3 sp3] in
  status_var_temp s' = 4%Z /\
  home_coord_offset s' = home_coord_offset s /\
  get_traj_setpoint s' = Some (get_current_ned_pos s).
Proof.
  intros M Ht Hy s'. subst s'.
  pose proof (view_step1 hb1 sp1 s _ _ _ _ (mission_view_of s 1 M)) as V.
  set (s2 := timer_callback hb1 sp1 s) in *. clearbody s2.
  set (yaw := lp_heading (vehicle_local_position s)) in *.
  set (pos := get_current_ned_pos s) in *.
  set (home := home_coord_offset s) in *.
  assert (Hm : mkVec3 (lp_x m - v0 home) (lp_y m - v1 home) (lp_z m - v2 home)
               = mkVec3 (v0 pos + (0 * cos yaw + -1 * sin yaw))
                        (v1 pos + (0 * sin yaw - -1 * cos yaw))
                        (v2 pos - 0)).
  { destruct V as (_ & _ & _ & _ & Ht'). rewrite Ht in Ht'.
    apply (f_equal (fun o => match o with Some v => v | None => pos end))
      in Ht'.
    exact Ht'. }
  rewrite !run_cons. cbn [run fold_left step].
  apply (view_position m) in V. rewrite Hm, Hy in V.
  set (s3 := vehicle_local_position_callback m s2) in *. clearbody s3.
  apply (view_step_arrived hb2 sp2) in V;
    [| left; reflexivity | rewrite distance_self; lra].
  set (s4 := timer_callback hb2 sp2 s3) in *. clearbody s4.
  apply (view_step3 hb3 sp3) in V.
  destruct V as ((_ & _ & _ & Hk) & Hh & _ & _ & Hg).
  split; [exact Hk |]. split; [exact Hh |]. rewrite Hg. f_equal.
  apply vec3_eq; cbn [v0 v1 v2]; ring.
Qed.

(** A stored absolute setpoint read in home-relative terms, and back. *)
Lemma stored_to_relative (s2 : Node) (home : Vec3) (msg : TrajectorySetpoint)
    (m : VehicleLocalPosition) :
  last_traj_setpoint_msg s2 = Some msg ->
  mkVec3 (lp_x m) (lp_y m) (lp_z m) = ts_position msg ->
  home_coord_offset s2 = home ->
  get_traj_setpoint s2
  = Some (mkVec3 (lp_x m - v0 home) (lp_y m - v1 home) (lp_z m - v2 home)).
Proof.
  intros Hl Hm Hh. unfold get_traj_setpoint, get_ned_pos.
  rewrite Hl, <- Hm, Hh. reflexivity.
Qed.

Lemma relative_to_stored (s' : Node) (home : Vec3)
    (estimate : VehicleLocalPosition) :
  home_coord_offset s' = home ->
  get_traj_setpoint s'
  = Some (mkVec3 (lp_x estimate - v0 home) (lp_y estimate - v1 home)
                 (lp_z estimate - v2 home)) ->
  exists msg2,
    last_traj_setpoint_msg s' = Some msg2 /\
    ts_position msg2 = mkVec3 (lp_x estimate) (lp_y estimate) (lp_z estimate).
Proof.
  intros Hh Hg. unfold get_traj_setpoint in Hg.
  destruct (last_traj_setpoint_msg s') as [msg2 |]; [| discriminate Hg].
  exists msg2. split; [reflexivity |].
  apply (f_equal (fun o => match o with
                           | Some v => v
                           | None => mkVec3 0 0 0
                           end)) in Hg.
  cbv beta iota in Hg. unfold get_ned_pos in Hg. rewrite Hh in Hg.
  apply vec3_eq; cbn [v0 v1 v2].
  - apply (f_equal v0) in Hg. cbn [v0] in Hg. lra.
  - apply (f_equal v1) in Hg. cbn [v1] in Hg. lra.
  - apply (f_equal v2) in Hg. cbn [v2] in Hg. lra.
Qed.

(** X25: the second leg undoes the first, over the reals: if the position
    estimate reports the vehicle exactly at the stored absolute setpoint of
    step 1 with the heading unchanged, the next two ticks take the mission to
    step 4 and store, as the new absolute setpoint, the raw position the
    vehicle started from, for every yaw and home offset. *)
Theorem mission_out_and_back
    (hb1 sp1 hb2 sp2 hb3 sp3 : Z) (s : Node) (m : VehicleLocalPosition)
    (msg1 : TrajectorySetpoint) :
  mission_at s 1 ->
  last_traj_setpoint_msg (timer_callback hb1 sp1 s) = Some msg1 ->
  mkVec3 (lp_x m) (lp_y m) (lp_z m) = ts_position msg1 ->
  lp_heading m = lp_heading (vehicle_local_position s) ->
  let s' := run (timer_callback hb1 sp1 s)
                [EvVehicleLocalPosition m; EvTimer hb2 sp2; EvTimer hb3 sp3] in
  status_var_temp s' = 4%Z /\
  exists msg2,
    last_traj_setpoint_msg s' = Some msg2 /\
    ts_position msg2
    = mkVec3 (lp_x (vehicle_local_position s))
             (lp_y (vehicle_local_position s))
             (lp_z (vehicle_local_position s)).
Proof.
  intros M Hl Hm Hy. cbv zeta.
  destruct (timer_callback_frame hb1 sp1 s)
    as (_ & _ & _ & _ & _ & _ & _ & _ & _ & Hh).
  pose proof (stored_to_relative _ _ msg1 m Hl Hm Hh) as Hg1.
  pose proof (mission_out_and_back_relative hb1 sp1 hb2 sp2 hb3 sp3 s m M
                Hg1 Hy) as H.
  cbv zeta in H. destruct H as (Hk & Hh' & Hg).
  split; [exact Hk |].
  exact (relative_to_stored _ _ (vehicle_local_position s) Hh' Hg).
Qed.

Lemma ready_to_move_east_mission_at : mission_at ready_to_move_east 1.
Proof. repeat split. cbn. discriminate. Qed.

Lemma mission_out_and_back_witness :
  home_coord_offset ready_to_move_east = mkVec3 3 4 (-1) /\
  status_var_temp
    (run (timer_callback 0 0 ready_to_move_east)
         [EvVehicleLocalPosition south_of_home; EvTimer 0 0; EvTimer 0 0])
  = 4%Z /\
  exists msg2,
    last_traj_setpoint_msg
      (run (timer_callback 0 0 ready_to_move_east)
           [EvVehicleLocalPosition south_of_home; EvTimer 0 0; EvTimer 0 0])
    = Some msg2 /\
    ts_position msg2 = mkVec3 3 4 (-1).
Proof.
  split; [reflexivity |].
  apply (mission_out_and_back 0 0 0 0 0 0 ready_to_move_east south_of_home
           (mkTrajectorySetpoint (mkVec3 2 4 (-1)) (PI / 2) (clock_us 0))).
  - exact ready_to_move_east_mission_at.
  - rewrite (timer_callback_step1 0 0 ready_to_move_east
               ready_to_move_east_mission_at).
    cbv zeta. unfold publish_trajectory_setpoint, ned_point_from_flu_offset.
    cbn. rewrite cos_PI2, sin_PI2. do 2 f_equal.
    apply vec3_eq; cbn [v0 v1 v2]; ring.
  - reflexivity.
  - reflexivity.
Defined.

(** ** Vehicle commands *)

(** X26: [arm] and [disarm] each append exactly one command to the
    publisher, in call order, addressed to system 1 component 1: the same
    command code with [param1] 1 for arming and 0 for disarming and every
    other parameter 0; [land] appends the landing command with all seven
    parameters 0. *)
Theorem arm_disarm_land_commands
    (ARM_DISARM NAV_LAND : Z) (t1 t2 t3 : Z)
    (pub : list Commands.VehicleCommand) :
  Commands.land NAV_LAND t3
    (Commands.disarm ARM_DISARM t2 (Commands.arm ARM_DISARM t1 pub))
  = pub ++
    [Commands.mkVehicleCommand ARM_DISARM 1 0 0 0 0 0 0 1 1 1 1 true
       (clock_us t1);
     Commands.mkVehicleCommand ARM_DISARM 0 0 0 0 0 0 0 1 1 1 1 true
       (clock_us t2);
     Commands.mkVehicleCommand NAV_LAND 0 0 0 0 0 0 0 1 1 1 1 true
       (clock_us t3)].
Proof.
  unfold Commands.land, Commands.disarm, Commands.arm,
    Commands.publish_vehicle_command.
  cbn [Commands.params_get String.eqb Ascii.eqb Bool.eqb].
  rewrite <- !app_assoc. reflexivity.
Qed.
